(** * H/alpha nine-zone classifier (ha9class.py): model and properties

    The arrays of the program are NumPy arrays of IEEE-754 floats.  A float
    is a [spec_float] of the Standard Library (zero, infinity, NaN or a
    finite sign/mantissa/exponent triple), compared with [SFleb], [SFltb]
    and [SFeqb]: every comparison with a NaN operand is false.  The two
    operands of a comparison are floats of one format, as NumPy makes them:
    a Python float that meets a float32 array or scalar is converted to
    float32 first.  An array is the list of its elements in row-major
    order; its shape is the length of that list.  Arrays that the program names and mutates live in a store of
    objects addressed by location, so that in-place assignment
    ([cls[mask] = 7], [H[H > 1.0] = 1.0]) and aliasing are explicit.

    The first part of the file holds the definitions, the second part the
    lemmas and theorems. *)

From Stdlib Require Import ZArith NArith List Lia Bool.
From Stdlib Require Import Floats.SpecFloat.
From Stdlib Require Import Strings.Byte Strings.Ascii Strings.String.
From stdpp Require Import base list sorting gmap strings pretty.

(** * Part I: definitions *)

(** ** Floats *)

Module Float.
Local Open Scope Z_scope.

Definition float := spec_float.

Definition nan : float := S754_nan.
Definition zero : float := S754_zero false.
Definition inf : float := S754_infinity false.

Definition isnan (x : float) : bool :=
  match x with S754_nan => true | _ => false end.

(** [np.isfinite]: neither NaN nor an infinity. *)
Definition isfinite (x : float) : bool :=
  match x with S754_nan | S754_infinity _ => false | _ => true end.

(** [x <= y], [x < y], [x > y], [x >= y], [x == y] on floats. *)
Definition le (x y : float) : bool := SFleb x y.
Definition lt (x y : float) : bool := SFltb x y.
Definition gt (x y : float) : bool := SFltb y x.
Definition ge (x y : float) : bool := SFleb y x.
Definition eqb (x y : float) : bool := SFeqb x y.

(** The float dtypes of the program's arrays, with the precision and the
    exponent bound of the binary format, the size of an element in bytes
    and the C constant for pi in that format ([NPY_PIf], [NPY_PI]). *)
Inductive dtype := float32 | float64.

Definition prec (dt : dtype) : Z :=
  match dt with float32 => 24 | float64 => 53 end.
Definition emax (dt : dtype) : Z :=
  match dt with float32 => 128 | float64 => 1024 end.
Definition itemsize (dt : dtype) : nat :=
  match dt with float32 => 4%nat | float64 => 8%nat end.
Definition NPY_PI (dt : dtype) : float :=
  match dt with
  | float32 => S754_finite false 13176795 (-22)
  | float64 => S754_finite false 7074237752028440 (-51)
  end.

(** The float of format [dt] nearest to the integer [n]. *)
Definition of_Z (dt : dtype) (n : Z) : float :=
  binary_normalize (prec dt) (emax dt) n 0 false.

(** The float of format [dt] nearest to the fraction [num/den]: the value
    of a decimal literal such as [0.3] (= 3/10) read in that format. *)
Definition lit (dt : dtype) (num den : Z) : float :=
  SFdiv (prec dt) (emax dt) (of_Z dt num) (of_Z dt den).

(** Conversion of a float to the format [dt], rounding to nearest even:
    what NumPy does to a Python float (binary64) that is compared with, or
    stored into, an array or a scalar of dtype [dt]. *)
Definition cast (dt : dtype) (x : float) : float :=
  SFldexp (prec dt) (emax dt) x 0.

(** A Python float literal [num/den] as an operand of dtype [dt]. *)
Definition pyfloat (dt : dtype) (num den : Z) : float :=
  cast dt (lit float64 num den).

(** [1.0] in format [dt]. *)
Definition one (dt : dtype) : float := of_Z dt 1.

Definition mul (dt : dtype) (x y : float) : float :=
  SFmul (prec dt) (emax dt) x y.

(** The element that the bits of an item denote in format [dt] (IEEE-754 binary
    interchange encoding: sign, biased exponent, trailing significand). *)
Definition of_bits (dt : dtype) (bits : Z) : float :=
  let mbits := prec dt - 1 in
  let ebits := 8 * Z.of_nat (itemsize dt) - prec dt in
  let m := bits mod 2 ^ mbits in
  let e := (bits / 2 ^ mbits) mod 2 ^ ebits in
  let s := Z.odd (bits / 2 ^ (mbits + ebits)) in
  if e =? 0 then
    match m with
    | Zpos p => S754_finite s p (3 - emax dt - prec dt)
    | _ => S754_zero s
    end
  else if e =? 2 ^ ebits - 1 then
    (if m =? 0 then S754_infinity s else S754_nan)
  else
    match m + 2 ^ mbits with
    | Zpos p => S754_finite s p (e - emax dt - prec dt + 2)
    | _ => S754_nan
    end.

End Float.
Import Float.

(** ** The object store and the monad of the program

    A NumPy array object is a list of elements tagged with its element kind.
    The store maps locations to array objects; a new array is allocated at
    the end of the store.  A computation takes the store and returns a value
    and the new store, or raises a Python exception. *)

Inductive ndarray :=
| AFloat (a : list float)
| ABool (a : list bool)
| AUInt8 (a : list N).

Abbreviation loc := nat (only parsing).
Abbreviation store := (list ndarray) (only parsing).

(** The [ValueError]s of the program and of the NumPy calls it makes. *)
Inductive value_error :=
| RawFileSizeMismatch      (* "Raw file size mismatch: expected .. got .." *)
| CannotReshape            (* "cannot reshape array of size .. into shape ..",
                              "can only specify one unknown dimension" *)
| EmptyReduction           (* reduction of a zero-size array *)
| ShapeMismatch            (* operands of different shapes *)
| MaxDimensionExceeded     (* "Maximum allowed dimension exceeded" *)
| ArrayTooBig.             (* "array is too big; `arr.size *
                              arr.dtype.itemsize` is larger than the maximum
                              possible size." *)

Inductive exn :=
| ValueError (why : value_error)
| IndexError
| TypeError
| OverflowError            (* "Python int too large to convert to C ssize_t" *)
| MemoryError.             (* the data of an array cannot be allocated *)

Inductive result (A : Type) :=
| Ok (a : A)
| Raise (e : exn).
Arguments Ok {A} a.
Arguments Raise {A} e.

Definition M (A : Type) : Type := store -> result (A * store).

Definition ret {A} (a : A) : M A := fun s => Ok (a, s).

Definition bind {A B} (c : M A) (k : A -> M B) : M B := fun s =>
  match c s with
  | Ok (a, s') => k a s'
  | Raise e => Raise e
  end.

Definition raise {A} (e : exn) : M A := fun _ => Raise e.

Notation "x <- c ;; k" := (bind c (fun x => k))
  (at level 100, c at next level, right associativity).
Notation "c ;;; k" := (bind c (fun _ => k))
  (at level 100, right associativity).

(** Reading the array object behind a name.  A name bound to an array of
    another element kind is outside the typed use of the program. *)
Definition get_f (r : loc) : M (list float) := fun s =>
  match s !! r with
  | Some (AFloat a) => Ok (a, s)
  | _ => Raise TypeError
  end.

Definition get_b (r : loc) : M (list bool) := fun s =>
  match s !! r with
  | Some (ABool a) => Ok (a, s)
  | _ => Raise TypeError
  end.

Definition alloc (a : ndarray) : M loc := fun s => Ok (length s, s ++ [a]).

(** [np.zeros(H.shape, dtype=np.uint8)] *)
Definition np_zeros_like (H : loc) : M loc :=
  a <- get_f H ;; alloc (AUInt8 (replicate (length a) 0%N)).

(** Elementwise comparison of an array with a scalar: [H <= c], [H > c],
    [H < c], [H == c], and [np.isnan(H)].  Each builds a new boolean
    array. *)
Definition np_le (r : loc) (c : float) : M (list bool) :=
  a <- get_f r ;; ret ((fun x => le x c) <$> a).
Definition np_gt (r : loc) (c : float) : M (list bool) :=
  a <- get_f r ;; ret ((fun x => gt x c) <$> a).
Definition np_lt (r : loc) (c : float) : M (list bool) :=
  a <- get_f r ;; ret ((fun x => lt x c) <$> a).
Definition np_eq (r : loc) (c : float) : M (list bool) :=
  a <- get_f r ;; ret ((fun x => eqb x c) <$> a).
Definition np_isnan (r : loc) : M (list bool) :=
  a <- get_f r ;; ret (isnan <$> a).

(** Elementwise [&] and [|] of two boolean arrays.  The operands must have
    the same shape; NumPy's broadcasting between different shapes is not
    part of the model, which raises for every shape mismatch. *)
Definition np_and (c1 c2 : M (list bool)) : M (list bool) :=
  m1 <- c1 ;; m2 <- c2 ;;
  if Nat.eqb (length m1) (length m2) then ret (zip_with andb m1 m2)
  else raise (ValueError ShapeMismatch).

Definition np_or (c1 c2 : M (list bool)) : M (list bool) :=
  m1 <- c1 ;; m2 <- c2 ;;
  if Nat.eqb (length m1) (length m2) then ret (zip_with orb m1 m2)
  else raise (ValueError ShapeMismatch).

Notation "c1 &&& c2" := (np_and c1 c2) (at level 40, left associativity).
Notation "c1 ||| c2" := (np_or c1 c2) (at level 50, left associativity).

(** Boolean-mask assignment of a scalar, [a[m] = v], for a mask [m] of the
    shape of [a]: the elements of [a] where [m] is true become [v], in
    place.  An array is kept as the list of its elements in row-major
    order, without its shape, so that arrays of one shape are arrays of one
    length; the masks that the program builds have the shape of the array
    they index whenever the grids have one shape.  What NumPy does with a
    mask of another shape (it applies a mask of fewer dimensions along the
    leading axes, and raises IndexError when an axis does not match) depends
    on the shapes and is not described by the branch for different
    lengths. *)
Definition assign {A} (m : list bool) (v : A) (a : list A) : list A :=
  zip_with (fun (b : bool) x => if b then v else x) m a.

Definition setitem_u8 (r : loc) (cm : M (list bool)) (v : N) : M unit :=
  m <- cm ;;
  fun s =>
    match s !! r with
    | Some (AUInt8 a) =>
        if Nat.eqb (length m) (length a)
        then Ok (tt, <[r := AUInt8 (assign m v a)]> s)
        else Raise IndexError
    | _ => Raise TypeError
    end.

Definition setitem_f (r : loc) (cm : M (list bool)) (v : float) : M unit :=
  m <- cm ;;
  fun s =>
    match s !! r with
    | Some (AFloat a) =>
        if Nat.eqb (length m) (length a)
        then Ok (tt, <[r := AFloat (assign m v a)]> s)
        else Raise IndexError
    | _ => Raise TypeError
    end.

Notation "r .[ cm ] ::= v" := (setitem_u8 r cm v) (at level 60, cm at level 200).

Definition read_u8 (r : loc) (s : store) : result (list N) :=
  match s !! r with
  | Some (AUInt8 a) => Ok a
  | _ => Raise TypeError
  end.

(** ** read_raw_binary

    The file behind [path] is the list of its bytes.  [np.fromfile] with a
    [count] reads that many elements, or as many complete elements as the
    file holds when it holds fewer; a negative [count] reads them all.  Bytes
    after the elements read are not looked at.

    [width] and [height] are Python integers, which have no bound; NumPy
    keeps counts, sizes and dimensions in C [ssize_t] (64 bits), and refuses
    what does not fit.  The array that [np.fromfile] fills is allocated
    before the file is read, for [count] elements whatever the file holds;
    whether that allocation succeeds is for the machine to say, and is the
    argument [can_alloc] (element type and number of elements) of the
    functions below. *)

Inductive byteorder := little | big.

Definition ssize_max : Z := Eval vm_compute in (2 ^ 63 - 1)%Z.
Definition ssize_min : Z := Eval vm_compute in (- 2 ^ 63)%Z.

Definition fits_ssize (n : Z) : bool :=
  ((ssize_min <=? n) && (n <=? ssize_max))%Z.

(** The size in bytes that NumPy computes for a new array object of shape
    [dims]: the element size times the dimensions that are not 0.  An array
    for which it exceeds [ssize_max] is "too big". *)
Definition nbytes (dt : dtype) (dims : list Z) : Z :=
  fold_left (fun n d => if (d =? 0)%Z then n else (n * d)%Z) dims
    (Z.of_nat (itemsize dt)).

Definition array_too_big (dt : dtype) (dims : list Z) : bool :=
  (ssize_max <? nbytes dt dims)%Z.

(** The integer that the bytes of one element denote. *)
Definition bits_of (bo : byteorder) (bs : list byte) : Z :=
  fold_right (fun b acc => Z.of_N (Byte.to_N b) + 256 * acc)%Z 0%Z
    (match bo with little => bs | big => rev bs end).

(** The first [num] elements of the file. *)
Definition file_elements (contents : list byte) (dt : dtype) (bo : byteorder)
    (num : nat) : list float :=
  let n := itemsize dt in
  (fun i => of_bits dt (bits_of bo (take n (drop (i * n) contents))))
    <$> seq 0 num.

(** [np.fromfile(path, dtype=dt, count=count)]: the count is converted to
    [ssize_t] when the arguments are read (OverflowError), an array of
    [count] elements, or of all the elements of the file for a negative
    [count], is created (ValueError when too big, MemoryError when its data
    cannot be allocated), and the file is read into it. *)
Definition np_fromfile (can_alloc : dtype -> Z -> bool)
    (contents : list byte) (dt : dtype) (bo : byteorder) (count : Z)
    : result (list float) :=
  if negb (fits_ssize count) then Raise OverflowError
  else
    let avail := (length contents / itemsize dt)%nat in
    let num := if (count <? 0)%Z then Z.of_nat avail else count in
    if array_too_big dt [num] then Raise (ValueError ArrayTooBig)
    else if negb (can_alloc dt num) then Raise MemoryError
    else Ok (file_elements contents dt bo (Nat.min (Z.to_nat num) avail)).

(** [a.reshape((height, width))] for an array [a] of [height * width]
    elements, which is what [read_raw_binary] has checked when it calls it;
    a two-dimensional array is its shape and its elements in row-major
    order.  A dimension that does not fit [ssize_t] is refused.  A negative
    dimension stands for one that NumPy is to infer from the size of [a];
    with [height * width] elements none can be inferred (two negative
    dimensions are two unknowns, and beside one negative dimension the
    other is 0), and the call raises ValueError.  The result is a new array
    object on the same data, refused when too big. *)
Definition reshape (dt : dtype) (a : list float) (height width : Z)
    : result ((nat * nat) * list float) :=
  if negb (fits_ssize height && fits_ssize width)
  then Raise (ValueError MaxDimensionExceeded)
  else if ((height <? 0) || (width <? 0))%Z then Raise (ValueError CannotReshape)
  else if negb (height * width =? Z.of_nat (length a))%Z
       then Raise (ValueError CannotReshape)
       else if array_too_big dt [height; width]
            then Raise (ValueError ArrayTooBig)
            else Ok ((Z.to_nat height, Z.to_nat width), a).

Definition read_raw_binary (can_alloc : dtype -> Z -> bool)
    (contents : list byte) (width height : Z)
    (dt : dtype) (bo : byteorder) : result ((nat * nat) * list float) :=
  let count := (width * height)%Z in
  match np_fromfile can_alloc contents dt bo count with
  | Raise e => Raise e
  | Ok a =>
      if negb (Z.of_nat (length a) =? count)%Z
      then Raise (ValueError RawFileSizeMismatch)
      else reshape dt a height width
  end.

(** ** autodetect_alpha_units and convert_alpha_to_degrees *)

Inductive units := radians | degrees.

(** [np.fmax]: the larger operand, and the other operand when one is NaN. *)
Definition np_fmax (x y : float) : float :=
  if ge x y || isnan y then x else y.

(** [np.nanmax(a)] is [np.fmax.reduce] over all the elements; it raises on
    an empty array and is NaN when every element is. *)
Definition np_nanmax (r : loc) : M float :=
  a <- get_f r ;;
  match a with
  | [] => raise (ValueError EmptyReduction)
  | x :: l => ret (fold_left np_fmax l x)
  end.

Definition autodetect_alpha_units (dt : dtype) (alpha_arr : loc) : M units :=
  amax <- np_nanmax alpha_arr ;;
  ret (if le amax (pyfloat dt 17 10) then radians else degrees).

(** [np.degrees(x)] multiplies by [180/pi], computed in the dtype. *)
Definition rad2deg (dt : dtype) : float :=
  SFdiv (prec dt) (emax dt) (of_Z dt 180) (NPY_PI dt).

Definition degrees_of (dt : dtype) (x : float) : float := mul dt x (rad2deg dt).

Definition np_degrees (dt : dtype) (r : loc) : M loc :=
  a <- get_f r ;; alloc (AFloat (degrees_of dt <$> a)).

Definition convert_alpha_to_degrees (dt : dtype) (alpha_arr : loc) : M loc :=
  u <- autodetect_alpha_units dt alpha_arr ;;
  match u with
  | radians => np_degrees dt alpha_arr
  | degrees => ret alpha_arr
  end.

(** ** classify_9zones *)

(** The thresholds as the comparisons see them, that is, in the dtype of
    the array they are compared with (NumPy converts the Python float
    operand of an array comparison to the array's dtype). *)
Record thresholds := {
  h_thresh : float * float;
  alpha_thresh_low_h : float * float;
  alpha_thresh_med_h : float * float;
  alpha_thresh_high_h : float * float
}.

Definition classify_9zones (H alpha_deg : loc) (th : thresholds)
    (nodata_mask : option loc) : M loc :=
  let '(h_lo, h_hi) := h_thresh th in
  let '(a_l1, a_h1) := alpha_thresh_low_h th in
  let '(a_l2, a_h2) := alpha_thresh_med_h th in
  let '(a_l3, a_h3) := alpha_thresh_high_h th in
  cls <- np_zeros_like H ;;
  mask_h_low <- np_le H h_lo ;;
  mask_h_med <- np_gt H h_lo &&& np_le H h_hi ;;
  mask_h_high <- np_gt H h_hi ;;
  cls.[ret mask_h_low &&& np_le alpha_deg a_l1] ::= 7%N ;;;
  cls.[ret mask_h_low &&& np_gt alpha_deg a_l1 &&& np_le alpha_deg a_h1] ::= 4%N ;;;
  cls.[ret mask_h_low &&& np_gt alpha_deg a_h1] ::= 1%N ;;;
  cls.[ret mask_h_med &&& np_le alpha_deg a_l2] ::= 8%N ;;;
  cls.[ret mask_h_med &&& np_gt alpha_deg a_l2 &&& np_le alpha_deg a_h2] ::= 5%N ;;;
  cls.[ret mask_h_med &&& np_gt alpha_deg a_h2] ::= 2%N ;;;
  cls.[ret mask_h_high &&& np_le alpha_deg a_l3] ::= 9%N ;;;
  cls.[ret mask_h_high &&& np_gt alpha_deg a_l3 &&& np_le alpha_deg a_h3] ::= 6%N ;;;
  cls.[ret mask_h_high &&& np_gt alpha_deg a_h3] ::= 3%N ;;;
  cls.[match nodata_mask with
       | None => np_isnan H ||| np_isnan alpha_deg
       | Some m => get_b m
       end] ::= 0%N ;;;
  ret cls.

(** The default thresholds, as Python floats brought to dtype [dt]. *)
Definition default_thresholds (dt : dtype) : thresholds :=
  {| h_thresh := (pyfloat dt 5 10, pyfloat dt 9 10);
     alpha_thresh_low_h := (pyfloat dt 425 10, pyfloat dt 525 10);
     alpha_thresh_med_h := (pyfloat dt 40 1, pyfloat dt 50 1);
     alpha_thresh_high_h := (pyfloat dt 45 1, pyfloat dt 55 1) |}.

(** The class map of a call on given grids: the two grids (and the mask, if
    one is supplied) are the objects of a fresh store. *)
Definition call_classify_9zones (Hs As : list float) (th : thresholds)
    (mask : option (list bool)) : result (list N) :=
  let s := [AFloat Hs; AFloat As] ++
           match mask with Some m => [ABool m] | None => [] end in
  match classify_9zones 0 1 th
          (match mask with Some _ => Some 2 | None => None end) s with
  | Ok (cls, s') => read_u8 cls s'
  | Raise e => Raise e
  end.

(** ** main, from the loaded rasters to the class map *)

(** The thresholds of the command line are Python floats; the comparisons
    of the classifier see them in the dtype of the grids. *)
Definition cast_thresholds (dt : dtype) (th : thresholds) : thresholds :=
  let c p := (cast dt (fst p), cast dt (snd p)) in
  {| h_thresh := c (h_thresh th);
     alpha_thresh_low_h := c (alpha_thresh_low_h th);
     alpha_thresh_med_h := c (alpha_thresh_med_h th);
     alpha_thresh_high_h := c (alpha_thresh_high_h th) |}.

(** [H] and [Alpha] are the arrays that the two calls of [ensure_loaded]
    return, [nodata] and [nodata2] their declared nodata values (Python
    floats, or [None]), [th] the thresholds of the command line.  The
    part of [main] between loading and writing is modelled: unit
    conversion, the nodata mask, the clamp of [H] in place, and the call of
    the classifier. *)
Definition main (dt : dtype) (H Alpha : loc)
    (nodata nodata2 : option float) (th : thresholds) : M loc :=
  alpha_deg <- convert_alpha_to_degrees dt Alpha ;;
  mask1 <- match nodata with
           | Some nd => np_eq H (cast dt nd)
           | None => np_isnan H
           end ;;
  mask2 <- match nodata2 with
           | Some nd => np_eq Alpha (cast dt nd)
           | None => np_isnan Alpha
           end ;;
  nodata_mask <- (m <- ret mask1 ||| ret mask2 ;; alloc (ABool m)) ;;
  setitem_f H (np_gt H (one dt)) (one dt) ;;;
  setitem_f H (np_lt H zero) zero ;;;
  cls <- classify_9zones H alpha_deg (cast_thresholds dt th) (Some nodata_mask) ;;
  ret cls.

(** One run of the pipeline on the two loaded grids, in a fresh store. *)
Definition run_main (dt : dtype) (Hs As : list float)
    (nodata nodata2 : option float) (th : thresholds) : result (list N) :=
  match main dt 0 1 nodata nodata2 th [AFloat Hs; AFloat As] with
  | Ok (cls, s') => read_u8 cls s'
  | Raise e => Raise e
  end.

(** ** The classifier as a function of the grids

    [class_map] is the class map that [classify_9zones] builds, written as a
    function of the contents of the grids and of the mask; [pixel_class] is
    the same sequence of assignments at one pixel. *)

Definition default_mask (Hs As : list float) : list bool :=
  zip_with orb (isnan <$> Hs) (isnan <$> As).

Definition class_map (th : thresholds) (Hs As : list float) (Ms : list bool)
    : list N :=
  let '(h_lo, h_hi) := h_thresh th in
  let '(a_l1, a_h1) := alpha_thresh_low_h th in
  let '(a_l2, a_h2) := alpha_thresh_med_h th in
  let '(a_l3, a_h3) := alpha_thresh_high_h th in
  let a_le c := (fun x => le x c) <$> As in
  let a_gt c := (fun x => gt x c) <$> As in
  let mask_h_low := (fun x => le x h_lo) <$> Hs in
  let mask_h_med :=
    zip_with andb ((fun x => gt x h_lo) <$> Hs) ((fun x => le x h_hi) <$> Hs) in
  let mask_h_high := (fun x => gt x h_hi) <$> Hs in
  let cls := replicate (length Hs) 0%N in
  let cls := assign (zip_with andb mask_h_low (a_le a_l1)) 7%N cls in
  let cls := assign (zip_with andb (zip_with andb mask_h_low (a_gt a_l1)) (a_le a_h1)) 4%N cls in
  let cls := assign (zip_with andb mask_h_low (a_gt a_h1)) 1%N cls in
  let cls := assign (zip_with andb mask_h_med (a_le a_l2)) 8%N cls in
  let cls := assign (zip_with andb (zip_with andb mask_h_med (a_gt a_l2)) (a_le a_h2)) 5%N cls in
  let cls := assign (zip_with andb mask_h_med (a_gt a_h2)) 2%N cls in
  let cls := assign (zip_with andb mask_h_high (a_le a_l3)) 9%N cls in
  let cls := assign (zip_with andb (zip_with andb mask_h_high (a_gt a_l3)) (a_le a_h3)) 6%N cls in
  let cls := assign (zip_with andb mask_h_high (a_gt a_h3)) 3%N cls in
  assign Ms 0%N cls.

Definition pixel_class (th : thresholds) (h a : float) (masked : bool) : N :=
  let '(h_lo, h_hi) := h_thresh th in
  let '(a_l1, a_h1) := alpha_thresh_low_h th in
  let '(a_l2, a_h2) := alpha_thresh_med_h th in
  let '(a_l3, a_h3) := alpha_thresh_high_h th in
  let mask_h_low := le h h_lo in
  let mask_h_med := gt h h_lo && le h h_hi in
  let mask_h_high := gt h h_hi in
  let cls := 0%N in
  let cls := if mask_h_low && le a a_l1 then 7%N else cls in
  let cls := if mask_h_low && gt a a_l1 && le a a_h1 then 4%N else cls in
  let cls := if mask_h_low && gt a a_h1 then 1%N else cls in
  let cls := if mask_h_med && le a a_l2 then 8%N else cls in
  let cls := if mask_h_med && gt a a_l2 && le a a_h2 then 5%N else cls in
  let cls := if mask_h_med && gt a a_h2 then 2%N else cls in
  let cls := if mask_h_high && le a a_l3 then 9%N else cls in
  let cls := if mask_h_high && gt a a_l3 && le a a_h3 then 6%N else cls in
  let cls := if mask_h_high && gt a a_h3 then 3%N else cls in
  if masked then 0%N else cls.

(** The mask that the last assignment of [classify_9zones] uses: the array
    behind the argument, which has the shape of the grids, or else the one
    derived from the NaNs of the grids. *)
Definition mask_of (s : store) (Hs As : list float) (nodata_mask : option loc)
    : option (list bool) :=
  match nodata_mask with
  | None => Some (default_mask Hs As)
  | Some r =>
      match s !! r with
      | Some (ABool m) =>
          if Nat.eqb (length m) (length Hs) then Some m else None
      | _ => None
      end
  end.

(** The two grids of a call: float arrays of one shape behind [H] and
    [alpha_deg]. *)
Definition grids_in (s : store) (H alpha_deg : loc) (Hs As : list float)
    : Prop :=
  (s !! H = Some (AFloat Hs)) /\ (s !! alpha_deg = Some (AFloat As)) /\
  (length As = length Hs).

(** [classify_9zones] returns, in store [s], a new array holding [out]. *)
Definition returns_class_map (H alpha_deg : loc) (th : thresholds)
    (nodata_mask : option loc) (s : store) (out : list N) : Prop :=
  exists cls s',
    classify_9zones H alpha_deg th nodata_mask s = Ok (cls, s') /\
    s' !! cls = Some (AUInt8 out).

(** ** The bins and the zone table of the specification

    Entropy is cut into three bins by [h_low] and [h_high]; within a bin,
    alpha is cut into three sub-bins by the pair of thresholds of that bin;
    the table gives the zone code of each of the nine combinations. *)

Inductive h_bin := LowH | MediumH | HighH.
Inductive alpha_sub := Sub0 | Sub1 | Sub2.

Definition in_h_bin (th : thresholds) (b : h_bin) (h : float) : bool :=
  let '(h_low, h_high) := h_thresh th in
  match b with
  | LowH => le h h_low
  | MediumH => lt h_low h && le h h_high
  | HighH => gt h h_high
  end.

Definition alpha_pair (th : thresholds) (b : h_bin) : float * float :=
  match b with
  | LowH => alpha_thresh_low_h th
  | MediumH => alpha_thresh_med_h th
  | HighH => alpha_thresh_high_h th
  end.

Definition in_alpha_sub (p : float * float) (j : alpha_sub) (a : float) : bool :=
  let '(a_low, a_high) := p in
  match j with
  | Sub0 => le a a_low
  | Sub1 => lt a_low a && le a a_high
  | Sub2 => gt a a_high
  end.

(** The combination [(b, j)] applies to the pixel [(h, a)]. *)
Definition applies (th : thresholds) (b : h_bin) (j : alpha_sub)
    (h a : float) : bool :=
  in_h_bin th b h && in_alpha_sub (alpha_pair th b) j a.

Definition zone_table (b : h_bin) (j : alpha_sub) : N :=
  match b, j with
  | LowH, Sub0 => 7 | LowH, Sub1 => 4 | LowH, Sub2 => 1
  | MediumH, Sub0 => 8 | MediumH, Sub1 => 5 | MediumH, Sub2 => 2
  | HighH, Sub0 => 9 | HighH, Sub1 => 6 | HighH, Sub2 => 3
  end%N.

(** Ordered thresholds: [h_low <= h_high], and [a_low <= a_high] in each
    bin; strictly ordered entropy thresholds: [h_low < h_high]. *)
Definition ordered (th : thresholds) : bool :=
  le (fst (h_thresh th)) (snd (h_thresh th))
  && le (fst (alpha_thresh_low_h th)) (snd (alpha_thresh_low_h th))
  && le (fst (alpha_thresh_med_h th)) (snd (alpha_thresh_med_h th))
  && le (fst (alpha_thresh_high_h th)) (snd (alpha_thresh_high_h th)).

Definition h_strictly_ordered (th : thresholds) : bool :=
  lt (fst (h_thresh th)) (snd (h_thresh th)).

Definition thresholds_not_nan (th : thresholds) : bool :=
  let ok p := negb (isnan (fst p)) && negb (isnan (snd p)) in
  ok (h_thresh th) && ok (alpha_thresh_low_h th)
  && ok (alpha_thresh_med_h th) && ok (alpha_thresh_high_h th).

(** ** The clamp of main at one element, and its nodata test *)

Definition clamp (dt : dtype) (x : float) : float :=
  let x := if gt x (one dt) then one dt else x in
  if lt x zero then zero else x.

Definition nodata_test (dt : dtype) (nodata : option float) (x : float) : bool :=
  match nodata with
  | Some nd => eqb x (cast dt nd)
  | None => isnan x
  end.

(** The greatest of the elements of [a] that satisfy [keep]. *)
Definition is_max_of (keep : float -> bool) (a : list float) (m : float) : Prop :=
  m ∈ a /\ keep m = true /\ forall x, x ∈ a -> keep x = true -> le x m = true.

Definition not_nan (x : float) : bool := negb (isnan x).

(** The unit that [autodetect_alpha_units] finds in a grid. *)
Definition units_of (dt : dtype) (a : list float) : units :=
  match a with
  | [] => degrees
  | x :: l =>
      if le (fold_left np_fmax l x) (pyfloat dt 17 10) then radians else degrees
  end.

(** The class map of one run of the pipeline, as a function of the two
    loaded grids. *)
Definition main_alpha_deg (dt : dtype) (As : list float) : list float :=
  match units_of dt As with
  | radians => degrees_of dt <$> As
  | degrees => As
  end.

Definition main_mask (dt : dtype) (Hs As : list float)
    (nodata nodata2 : option float) : list bool :=
  zip_with orb (nodata_test dt nodata <$> Hs) (nodata_test dt nodata2 <$> As).

Definition main_class_map (dt : dtype) (Hs As : list float)
    (nodata nodata2 : option float) (th : thresholds) : list N :=
  class_map (cast_thresholds dt th) (clamp dt <$> Hs) (main_alpha_deg dt As)
    (main_mask dt Hs As nodata nodata2).

(** ** Running computations *)

Definition exec {A} (c : M A) (s : store) (v : A) (s' : store) : Prop :=
  c s = Ok (v, s').

(** ** Sample values

    The floats of the examples, in float32 and in float64, written as
    Python literals and evaluated. *)

Module F32.
Definition x0_3 : float := Eval vm_compute in pyfloat float32 3 10.
Definition x0_7 : float := Eval vm_compute in pyfloat float32 7 10.
Definition x0_95 : float := Eval vm_compute in pyfloat float32 95 100.
Definition x60 : float := Eval vm_compute in pyfloat float32 60 1.
Definition x45 : float := Eval vm_compute in pyfloat float32 45 1.
Definition x40 : float := Eval vm_compute in pyfloat float32 40 1.
Definition x30 : float := Eval vm_compute in pyfloat float32 30 1.
Definition x1_05 : float := Eval vm_compute in pyfloat float32 105 100.
Definition m0_1 : float := Eval vm_compute in pyfloat float32 (-1) 10.
Definition m9999 : float := Eval vm_compute in of_Z float32 (-9999).
Definition x1 : float := Eval vm_compute in one float32.
Definition defaults : thresholds :=
  Eval vm_compute in default_thresholds float32.
End F32.

Module F64.
Definition x0_5 : float := Eval vm_compute in pyfloat float64 5 10.
Definition x0_9 : float := Eval vm_compute in pyfloat float64 9 10.
Definition x42_5 : float := Eval vm_compute in pyfloat float64 425 10.
Definition x52_5 : float := Eval vm_compute in pyfloat float64 525 10.
Definition x40 : float := Eval vm_compute in pyfloat float64 40 1.
Definition x45 : float := Eval vm_compute in pyfloat float64 45 1.
Definition x50 : float := Eval vm_compute in pyfloat float64 50 1.
Definition x55 : float := Eval vm_compute in pyfloat float64 55 1.
Definition x0_7 : float := Eval vm_compute in pyfloat float64 7 10.
Definition x1_2 : float := Eval vm_compute in pyfloat float64 12 10.
Definition x1_5 : float := Eval vm_compute in pyfloat float64 15 10.
Definition x80 : float := Eval vm_compute in pyfloat float64 80 1.
Definition m20 : float := Eval vm_compute in pyfloat float64 (-20) 1.
Definition m9999 : float := Eval vm_compute in of_Z float64 (-9999).
Definition defaults : thresholds :=
  Eval vm_compute in default_thresholds float64.
End F64.

(** ** The palette, the class descriptions and the preview

    A Python dict with integer keys is the list of its items in insertion
    order; [d[k]] is the value of the first item with key [k].  The keys of
    a Python dict are distinct; no definition below relies on it. *)

Abbreviation dict V := (list (Z * V)) (only parsing).

Fixpoint dict_get {V} (k : Z) (d : dict V) : option V :=
  match d with
  | [] => None
  | (k', v) :: d' => if (k =? k')%Z then Some v else dict_get k d'
  end.

(** [sorted(d.keys())] *)
Definition sorted_keys {V} (d : dict V) : list Z := merge_sort Z.le (d.*1).

Abbreviation rgba := (Z * Z * Z * Z)%type (only parsing).

Definition get_esa_colortable : dict rgba :=
  [ (0, (0, 0, 0, 0));
    (1, (255, 165, 0, 255));
    (2, (204, 0, 0, 255));
    (3, (128, 0, 64, 255));
    (4, (255, 204, 0, 255));
    (5, (0, 255, 0, 255));
    (6, (0, 100, 0, 255));
    (7, (0, 204, 204, 255));
    (8, (0, 51, 153, 255));
    (9, (153, 51, 153, 255)) ]%Z.

Definition CLASS_DESC : dict string :=
  [ (0, "0: nodata / unclassified");
    (1, "1: Dihedral scatterer (orange) [Z1]");
    (2, "2: Forestry / double-bounce (red) [Z2]");
    (3, "3: Branch / crown structure (maroon) [Z3]");
    (4, "4: Dipole (yellow) [Z4]");
    (5, "5: Vegetation (lime green) [Z5]");
    (6, "6: Cloud of anisotropic needles (dark green) [Z6]");
    (7, "7: Bragg surface (cyan) [Z7]");
    (8, "8: Surface roughness / propagation (dark blue) [Z8]");
    (9, "9: No feasible region / ambiguous (violet) [Z9]") ]%Z.

(** *** write_paletted_geotiff: the colour table and the metadata

    A GDAL colour table maps palette indices to entries; [SetColorEntry]
    sets one entry.  The first loop of [write_paletted_geotiff] sets the
    entries of the keys of the palette, in sorted order, the second loop
    sets the indices 10 to 255 to transparent. *)
Definition SetColorEntry (i : Z) (e : rgba) (ct : gmap Z rgba) : gmap Z rgba :=
  <[i := e]> ct.

Definition color_table (cmap : dict rgba) : gmap Z rgba :=
  let ct :=
    foldl (fun ct idx =>
             match dict_get idx cmap with
             | Some e => SetColorEntry idx e ct
             | None => ct
             end) ∅ (sorted_keys cmap) in
  foldl (fun ct i => SetColorEntry i (0, 0, 0, 0)%Z ct) ct (seqZ 10 246).

(** The metadata of the dataset: [meta[f"CLASS_{int(k)}"] = class_desc[k]]
    for the keys in sorted order; [class_desc] defaults to [CLASS_DESC]. *)
Definition class_key (k : Z) : string := "CLASS_" +:+ pretty k.

Definition metadata (class_desc : option (dict string)) : gmap string string :=
  let class_desc := default CLASS_DESC class_desc in
  foldl (fun meta k =>
           match dict_get k class_desc with
           | Some d => <[class_key k := d]> meta
           | None => meta
           end) ∅ (sorted_keys class_desc).

(** *** main: the preview

    [color_lookup] has one row of three bytes for each class from 0 to 9;
    the entries of the palette with a key from 0 to 9 fill it (the values
    of the palette are bytes).  [rgb = color_lookup[cls]] takes the row of
    each pixel's class, and raises for a class that has no row. *)
Definition color_lookup (cmap : dict rgba) : list (Z * Z * Z) :=
  foldl (fun t (item : Z * rgba) =>
           let '(idx, (r, g, b, a)) := item in
           if ((0 <=? idx) && (idx <=? 9))%Z
           then <[Z.to_nat idx := (r, g, b)]> t
           else t)
        (replicate 10 (0, 0, 0)%Z) cmap.

Definition quicklook_rgb (cls : list N) : result (list (Z * Z * Z)) :=
  match mapM (fun c => color_lookup get_esa_colortable !! N.to_nat c) cls with
  | Some rgb => Ok rgb
  | None => Raise IndexError
  end.

(** [os.path.splitext] on a POSIX path: the extension starts at the last
    dot of the last component, unless only dots precede it there. *)
Abbreviation path := (list ascii) (only parsing).

(** [p.rfind(c)]: the index of the last [c] in [p], or -1. *)
Fixpoint rfind (c : ascii) (p : path) : Z :=
  match p with
  | [] => -1
  | x :: p' =>
      let r := rfind c p' in
      if (0 <=? r)%Z then (r + 1)%Z
      else if Ascii.eqb x c then 0%Z else (-1)%Z
  end.

(** The loop of [_splitext] that skips the leading dots of the file name:
    [n] indices remain between [filenameIndex] and [dotIndex]. *)
Fixpoint skip_leading_dots (p : path) (filenameIndex n dotIndex : nat)
    : path * path :=
  match n with
  | O => (p, [])
  | S n' =>
      match p !! filenameIndex with
      | Some x =>
          if negb (Ascii.eqb x ".")
          then (take dotIndex p, drop dotIndex p)
          else skip_leading_dots p (S filenameIndex) n' dotIndex
      | None => (take dotIndex p, drop dotIndex p)
      end
  end.

Definition splitext (p : path) : path * path :=
  let sepIndex := rfind "/" p in
  let dotIndex := rfind "." p in
  if (dotIndex >? sepIndex)%Z
  then let filenameIndex := Z.to_nat (sepIndex + 1) in
       skip_leading_dots p filenameIndex (Z.to_nat dotIndex - filenameIndex)
         (Z.to_nat dotIndex)
  else (p, []).

(** [quicklook = os.path.splitext(args.out)[0] + '_ql.png'] *)
Definition quicklook_path (out : path) : path :=
  (splitext out).1 ++ list_ascii_of_string "_ql.png".

(** ** ensure_loaded

    What [read_with_gdal] returns for a path is an argument: [None] when
    GDAL cannot open the file, and otherwise the first band as a float32
    array with the geotransform, the projection and the nodata value of
    the band.  A loaded raster is the tuple that [ensure_loaded]
    returns.  [can_alloc] is passed on to [read_raw_binary]. *)
Record gdal_dataset := {
  ds_array : (nat * nat) * list float;
  ds_geo : list float;
  ds_proj : string;
  ds_nodata : option float
}.

(** The exceptions of [ensure_loaded]: its own ValueError ("width & height
    required for raw binary inputs"), or the exception of
    [read_raw_binary]. *)
Inductive load_exn :=
| WidthHeightRequired
| FromRaw (e : exn).

Definition ensure_loaded (can_alloc : dtype -> Z -> bool)
    (g : option gdal_dataset) (contents : list byte)
    (width height : option Z) (dt : dtype) (bo : byteorder)
    : load_exn +
      ((nat * nat) * list float) * option (list float) * option string
      * option float :=
  match g with
  | Some g => inr (ds_array g, Some (ds_geo g), Some (ds_proj g), ds_nodata g)
  | None =>
      match width, height with
      | Some width, Some height =>
          match read_raw_binary can_alloc contents width height dt bo with
          | Ok arr => inr (arr, None, None, None)
          | Raise e => inl (FromRaw e)
          end
      | _, _ => inl WidthHeightRequired
      end
  end.

(** * Part II: lemmas and theorems *)

(** ** The order on floats

    [SFcompare] is a total preorder on the floats that are not NaN. *)

Section FloatOrder.
Local Open Scope Z_scope.

Lemma compare_antisym (x y : float) :
  SFcompare y x = option_map CompOpp (SFcompare x y).
Proof.
  destruct x as [[]|[]| |[] mx ex], y as [[]|[]| |[] my ey]; simpl; try reflexivity;
    rewrite (Z.compare_antisym ex ey);
    destruct (ex ?= ey); simpl; try reflexivity;
    rewrite (Pos.compare_cont_antisym mx my Eq); simpl;
    destruct (Pos.compare_cont Eq mx my); reflexivity.
Qed.

Lemma compare_nan_iff (x y : float) :
  SFcompare x y = None <-> isnan x = true \/ isnan y = true.
Proof.
  destruct x as [[]|[]| |[] mx ex], y as [[]|[]| |[] my ey]; simpl;
    split; intros; try discriminate; try tauto; intuition discriminate.
Qed.

Lemma le_not_nan (x y : float) :
  le x y = true -> isnan x = false /\ isnan y = false.
Proof.
  unfold le, SFleb. destruct (SFcompare x y) eqn:E; [|discriminate].
  intros _. destruct (isnan x) eqn:Ex, (isnan y) eqn:Ey; try tauto;
    assert (SFcompare x y = None) by (apply compare_nan_iff; tauto); congruence.
Qed.

Lemma lt_not_nan (x y : float) :
  lt x y = true -> isnan x = false /\ isnan y = false.
Proof.
  unfold lt, SFltb. destruct (SFcompare x y) eqn:E; [|discriminate].
  intros _. destruct (isnan x) eqn:Ex, (isnan y) eqn:Ey; try tauto;
    assert (SFcompare x y = None) by (apply compare_nan_iff; tauto); congruence.
Qed.

(** On floats that are not NaN, [x > y] is the negation of [x <= y]. *)
Lemma gt_negb_le (x y : float) :
  isnan x = false -> isnan y = false -> gt x y = negb (le x y).
Proof.
  intros Hx Hy. unfold gt, le, SFltb, SFleb. rewrite (compare_antisym x y).
  destruct (SFcompare x y) as [[]|] eqn:E; simpl; try reflexivity.
  apply compare_nan_iff in E. destruct E; congruence.
Qed.

Lemma le_refl (x : float) : isnan x = false -> le x x = true.
Proof.
  destruct x as [[]|[]| |[] mx ex]; simpl; try reflexivity; try discriminate;
    intros _; unfold le, SFleb; simpl; rewrite Z.compare_refl;
    change (Pos.compare_cont Eq mx mx) with (Pos.compare mx mx);
    rewrite Pos.compare_refl; reflexivity.
Qed.

Lemma le_trans (x y z : float) :
  le x y = true -> le y z = true -> le x z = true.
Proof.
  unfold le, SFleb.
  destruct x as [[]|[]| |[] mx ex], y as [[]|[]| |[] my ey],
           z as [[]|[]| |[] mz ez]; simpl; try (intros; congruence);
    change (Pos.compare_cont Eq) with Pos.compare;
    destruct (Z.compare_spec ex ey), (Z.compare_spec ey ez),
             (Z.compare_spec ex ez); subst; try lia; try (intros; congruence);
    destruct (Pos.compare_spec mx my), (Pos.compare_spec my mz),
             (Pos.compare_spec mx mz); subst; simpl; try lia;
    intros; congruence.
Qed.

Lemma lt_le (x y : float) : lt x y = true -> le x y = true.
Proof.
  unfold lt, le, SFltb, SFleb. destruct (SFcompare x y) as [[]|]; congruence.
Qed.

Lemma eqb_le (x y : float) : eqb x y = true -> le x y = true.
Proof.
  unfold eqb, le, SFeqb, SFleb. destruct (SFcompare x y) as [[]|]; congruence.
Qed.

Lemma eqb_ge (x y : float) : eqb x y = true -> le y x = true.
Proof.
  unfold eqb, le, SFeqb, SFleb. rewrite (compare_antisym x y).
  destruct (SFcompare x y) as [[]|]; simpl; congruence.
Qed.

(** On floats that are not NaN the order is total. *)
Lemma le_total (x y : float) :
  isnan x = false -> isnan y = false -> le x y = true \/ le y x = true.
Proof.
  intros Hx Hy. unfold le, SFleb. rewrite (compare_antisym x y).
  destruct (SFcompare x y) as [[]|] eqn:E; simpl; auto.
  apply compare_nan_iff in E. destruct E; congruence.
Qed.

(** [x <= y] excludes [x > y]. *)
Lemma le_gt_false (x y : float) : le x y = true -> gt x y = false.
Proof.
  intros H. destruct (le_not_nan _ _ H) as [Hx Hy].
  rewrite gt_negb_le, H; auto.
Qed.

Lemma gt_le_false (x y : float) : gt x y = true -> le x y = false.
Proof.
  intros H. destruct (lt_not_nan _ _ H) as [Hy Hx].
  rewrite gt_negb_le in H; auto. destruct (le x y); auto.
Qed.

(** [x < y <= z] gives [x < z]. *)
Lemma lt_le_trans (x y z : float) :
  lt x y = true -> le y z = true -> lt x z = true.
Proof.
  intros Hxy Hyz.
  destruct (lt_not_nan _ _ Hxy) as [Hx Hy], (le_not_nan _ _ Hyz) as [_ Hz].
  change (gt z x = true). rewrite gt_negb_le by assumption.
  destruct (le z x) eqn:E; [|reflexivity].
  pose proof (le_trans _ _ _ Hyz E) as Hyx.
  apply le_gt_false in Hyx. unfold gt, lt in *. congruence.
Qed.

(** Floats that are equal for [le] in both directions compare alike with
    any third float. *)
Lemma le_congr_l (x y c : float) :
  le x y = true -> le y x = true -> le x c = le y c.
Proof.
  intros Hxy Hyx.
  destruct (le x c) eqn:E1, (le y c) eqn:E2; try reflexivity.
  - rewrite (le_trans _ _ _ Hyx E1) in E2. discriminate.
  - rewrite (le_trans _ _ _ Hxy E2) in E1. discriminate.
Qed.

Lemma one_positive (dt : dtype) :
  isnan (one dt) = false /\ lt (one dt) zero = false /\ gt zero (one dt) = false.
Proof. destruct dt; vm_compute; auto. Qed.

End FloatOrder.

(** ** Running computations: one lemma for each operation *)

Section Exec.

Lemma exec_ret {A} (a : A) s : exec (ret a) s a s.
Proof. reflexivity. Qed.

Lemma exec_bind {A B} (c : M A) (k : A -> M B) s a s1 b s2 :
  exec c s a s1 -> exec (k a) s1 b s2 -> exec (bind c k) s b s2.
Proof. unfold exec, bind. intros -> ->. reflexivity. Qed.

Lemma exec_get_f s r a : s !! r = Some (AFloat a) -> exec (get_f r) s a s.
Proof. unfold exec, get_f. intros ->. reflexivity. Qed.

Lemma exec_get_b s r a : s !! r = Some (ABool a) -> exec (get_b r) s a s.
Proof. unfold exec, get_b. intros ->. reflexivity. Qed.

Lemma exec_alloc s a : exec (alloc a) s (length s) (s ++ [a]).
Proof. reflexivity. Qed.

Lemma exec_np_zeros_like s r a :
  s !! r = Some (AFloat a) ->
  exec (np_zeros_like r) s (length s) (s ++ [AUInt8 (replicate (length a) 0%N)]).
Proof.
  intros E. eapply exec_bind; [apply exec_get_f, E | apply exec_alloc].
Qed.

Lemma exec_np_le s r c a :
  s !! r = Some (AFloat a) -> exec (np_le r c) s ((fun x => le x c) <$> a) s.
Proof. intros E. eapply exec_bind; [apply exec_get_f, E | apply exec_ret]. Qed.

Lemma exec_np_gt s r c a :
  s !! r = Some (AFloat a) -> exec (np_gt r c) s ((fun x => gt x c) <$> a) s.
Proof. intros E. eapply exec_bind; [apply exec_get_f, E | apply exec_ret]. Qed.

Lemma exec_np_lt s r c a :
  s !! r = Some (AFloat a) -> exec (np_lt r c) s ((fun x => lt x c) <$> a) s.
Proof. intros E. eapply exec_bind; [apply exec_get_f, E | apply exec_ret]. Qed.

Lemma exec_np_eq s r c a :
  s !! r = Some (AFloat a) -> exec (np_eq r c) s ((fun x => eqb x c) <$> a) s.
Proof. intros E. eapply exec_bind; [apply exec_get_f, E | apply exec_ret]. Qed.

Lemma exec_np_isnan s r a :
  s !! r = Some (AFloat a) -> exec (np_isnan r) s (isnan <$> a) s.
Proof. intros E. eapply exec_bind; [apply exec_get_f, E | apply exec_ret]. Qed.

Lemma exec_np_and c1 c2 s m1 s1 m2 s2 :
  exec c1 s m1 s1 -> exec c2 s1 m2 s2 -> length m1 = length m2 ->
  exec (c1 &&& c2) s (zip_with andb m1 m2) s2.
Proof.
  intros E1 E2 L. unfold np_and.
  eapply exec_bind; [exact E1|]. eapply exec_bind; [exact E2|].
  rewrite L, Nat.eqb_refl. apply exec_ret.
Qed.

Lemma exec_np_or c1 c2 s m1 s1 m2 s2 :
  exec c1 s m1 s1 -> exec c2 s1 m2 s2 -> length m1 = length m2 ->
  exec (c1 ||| c2) s (zip_with orb m1 m2) s2.
Proof.
  intros E1 E2 L. unfold np_or.
  eapply exec_bind; [exact E1|]. eapply exec_bind; [exact E2|].
  rewrite L, Nat.eqb_refl. apply exec_ret.
Qed.

Lemma exec_setitem_u8 cm s m s1 r a v :
  exec cm s m s1 -> s1 !! r = Some (AUInt8 a) -> length m = length a ->
  exec (setitem_u8 r cm v) s tt (<[r := AUInt8 (assign m v a)]> s1).
Proof.
  intros E Hr L. unfold setitem_u8. eapply exec_bind; [exact E|].
  unfold exec. rewrite Hr, L, Nat.eqb_refl. reflexivity.
Qed.

Lemma exec_setitem_f cm s m s1 r a v :
  exec cm s m s1 -> s1 !! r = Some (AFloat a) -> length m = length a ->
  exec (setitem_f r cm v) s tt (<[r := AFloat (assign m v a)]> s1).
Proof.
  intros E Hr L. unfold setitem_f. eapply exec_bind; [exact E|].
  unfold exec. rewrite Hr, L, Nat.eqb_refl. reflexivity.
Qed.

Lemma store_last_lookup (s : store) (a : ndarray) :
  (s ++ [a]) !! length s = Some a.
Proof. apply list_lookup_middle. reflexivity. Qed.

Lemma store_last_insert (s : store) (a b : ndarray) :
  <[length s := b]> (s ++ [a]) = s ++ [b].
Proof.
  replace (length s) with (length s + 0)%nat by lia.
  rewrite insert_app_r. reflexivity.
Qed.

(** Assignment to the array allocated last, when the mask expression
    leaves the store as it is. *)
Lemma exec_setitem_last cm (s : store) m a v :
  exec cm (s ++ [AUInt8 a]) m (s ++ [AUInt8 a]) -> length m = length a ->
  exec (setitem_u8 (length s) cm v) (s ++ [AUInt8 a]) tt
       (s ++ [AUInt8 (assign m v a)]).
Proof.
  intros E L.
  rewrite <- (store_last_insert s (AUInt8 a) (AUInt8 (assign m v a))).
  eapply exec_setitem_u8; eauto using store_last_lookup.
Qed.

Lemma length_assign {A} (m : list bool) (v : A) (a : list A) :
  length (assign m v a) = Nat.min (length m) (length a).
Proof. unfold assign. apply length_zip_with. Qed.

(** Assignment through a mask computed elementwise from the array itself. *)
Lemma assign_fmap_self {A} (p : A -> bool) (v : A) (a : list A) :
  assign (p <$> a) v a = (fun x => if p x then v else x) <$> a.
Proof.
  unfold assign. induction a as [|x a IH]; simpl; [reflexivity|].
  f_equal. exact IH.
Qed.

End Exec.

Create Rewrite HintDb lens.
#[local] Hint Rewrite @length_fmap @length_replicate @length_zip_with
  @length_assign @length_insert : lens.

Ltac lens := autorewrite with lens in *; try lia.

Ltac run_step :=
  first
    [ apply exec_ret
    | apply exec_np_zeros_like
    | apply exec_np_le | apply exec_np_gt | apply exec_np_lt
    | apply exec_np_eq | apply exec_np_isnan
    | apply exec_get_b
    | eapply exec_np_and | eapply exec_np_or
    | eapply exec_setitem_last
    | eapply exec_bind
    | apply lookup_app_l_Some; eassumption
    | eassumption
    | solve [lens] ].

(** ** classify_9zones computes [class_map] *)

Section Classify.

Variables (s : store) (H alpha_deg : loc) (Hs As : list float).
Hypothesis H_grid : s !! H = Some (AFloat Hs).
Hypothesis alpha_grid : s !! alpha_deg = Some (AFloat As).
Hypothesis same_shape : length As = length Hs.

Lemma mask_of_length nodata_mask Ms :
  mask_of s Hs As nodata_mask = Some Ms -> length Ms = length Hs.
Proof.
  destruct nodata_mask as [r|]; simpl.
  - destruct (s !! r) as [[?|m|?]|]; try discriminate.
    destruct (Nat.eqb_spec (length m) (length Hs)); congruence.
  - intros [= <-]. unfold default_mask. lens.
Qed.

Lemma exec_mask_arg (s' : list ndarray) nodata_mask Ms :
  mask_of s Hs As nodata_mask = Some Ms ->
  exec (match nodata_mask with
        | None => np_isnan H ||| np_isnan alpha_deg
        | Some m => get_b m
        end) (s ++ s') Ms (s ++ s').
Proof.
  destruct nodata_mask as [r|]; simpl.
  - destruct (s !! r) as [[?|m|?]|] eqn:Er; try discriminate.
    destruct (Nat.eqb (length m) (length Hs)); [|discriminate].
    intros [= <-]. repeat run_step.
  - intros [= <-]. unfold default_mask. repeat run_step.
Qed.

Lemma classify_9zones_exec th nodata_mask Ms :
  mask_of s Hs As nodata_mask = Some Ms ->
  exec (classify_9zones H alpha_deg th nodata_mask) s
       (length s) (s ++ [AUInt8 (class_map th Hs As Ms)]).
Proof.
  intros HM. pose proof (mask_of_length _ _ HM) as LM.
  destruct th as [[h_lo h_hi] [a_l1 a_h1] [a_l2 a_h2] [a_l3 a_h3]].
  unfold classify_9zones, class_map; simpl.
  eapply exec_bind; [repeat run_step|].
  eapply exec_bind; [repeat run_step|].
  eapply exec_bind; [repeat run_step|].
  eapply exec_bind; [repeat run_step|].
  do 9 (eapply exec_bind; [repeat run_step|]).
  eapply exec_bind.
  { eapply exec_setitem_last; [apply (exec_mask_arg [_]); exact HM|]. lens. }
  apply exec_ret.
Qed.

(** The call returns a new array that holds [class_map], and every object
    that was in the store is left as it was. *)
Lemma classify_9zones_returns th nodata_mask Ms :
  mask_of s Hs As nodata_mask = Some Ms ->
  returns_class_map H alpha_deg th nodata_mask s (class_map th Hs As Ms).
Proof.
  intros HM. exists (length s), (s ++ [AUInt8 (class_map th Hs As Ms)]).
  split; [apply classify_9zones_exec, HM | apply store_last_lookup].
Qed.

End Classify.

Lemma class_map_length th Hs As Ms :
  length As = length Hs -> length Ms = length Hs ->
  length (class_map th Hs As Ms) = length Hs.
Proof.
  intros LA LM.
  destruct th as [[h_lo h_hi] [a_l1 a_h1] [a_l2 a_h2] [a_l3 a_h3]].
  unfold class_map; simpl. lens.
Qed.

Lemma class_map_lookup th Hs As Ms (i : nat) h a (b : bool) :
  Hs !! i = Some h -> As !! i = Some a -> Ms !! i = Some b ->
  class_map th Hs As Ms !! i = Some (pixel_class th h a b).
Proof.
  intros EH EA EM.
  destruct th as [[h_lo h_hi] [a_l1 a_h1] [a_l2 a_h2] [a_l3 a_h3]].
  unfold class_map, pixel_class, assign; simpl.
  rewrite !lookup_zip_with, !list_lookup_fmap, EH, EA, EM; simpl.
  rewrite lookup_replicate_2 by (apply lookup_lt_Some in EH; lia).
  reflexivity.
Qed.

Lemma default_mask_lookup Hs As (i : nat) h a :
  Hs !! i = Some h -> As !! i = Some a ->
  default_mask Hs As !! i = Some (isnan h || isnan a).
Proof.
  intros EH EA. unfold default_mask.
  rewrite lookup_zip_with, !list_lookup_fmap, EH, EA. reflexivity.
Qed.

(** A call on fresh objects returns [class_map]. *)
Lemma call_classify_9zones_eq Hs As th mask Ms :
  length As = length Hs ->
  match mask with
  | Some m => length m = length Hs /\ Ms = m
  | None => Ms = default_mask Hs As
  end ->
  call_classify_9zones Hs As th mask = Ok (class_map th Hs As Ms).
Proof.
  intros L HM. unfold call_classify_9zones. cbv zeta.
  set (s := [AFloat Hs; AFloat As] ++ _).
  set (nd := match mask with Some _ => Some 2 | None => None end).
  assert (E : mask_of s Hs As nd = Some Ms).
  { subst s nd. destruct mask as [m|]; simpl.
    - destruct HM as [-> ->]. rewrite Nat.eqb_refl. reflexivity.
    - rewrite HM. reflexivity. }
  pose proof (classify_9zones_exec s 0 1 Hs As) as X.
  specialize (X ltac:(subst s; reflexivity) ltac:(subst s; reflexivity) L th nd Ms E).
  unfold exec in X.
  match goal with
  | |- match ?c with _ => _ end = _ =>
      change c with (classify_9zones 0 1 th nd s)
  end.
  rewrite X. unfold read_u8.
  rewrite store_last_lookup. reflexivity.
Qed.

(** ** The classifier at one pixel *)

Lemma sfltb_negb (x y : float) :
  isnan x = false -> isnan y = false -> SFltb y x = negb (SFleb x y).
Proof. exact (gt_negb_le x y). Qed.

Lemma ordered_not_nan th : ordered th = true -> thresholds_not_nan th = true.
Proof.
  destruct th as [[h_lo h_hi] [a_l1 a_h1] [a_l2 a_h2] [a_l3 a_h3]].
  unfold ordered, thresholds_not_nan; simpl. rewrite !andb_true_iff.
  intros [[[X1 X2] X3] X4].
  apply le_not_nan in X1, X2, X3, X4.
  destruct X1 as [-> ->], X2 as [-> ->], X3 as [-> ->], X4 as [-> ->].
  auto.
Qed.

(** Brings every comparison of the goal to a [SFleb] between the pixel and
    a threshold, given that none of them is NaN. *)
Ltac to_leb h a Hh Ha :=
  unfold gt, lt, le in *;
  repeat match goal with
  | Hc : isnan ?c = false |- context [SFltb ?c h] =>
      rewrite (sfltb_negb h c Hh Hc)
  | Hc : isnan ?c = false |- context [SFltb ?c a] =>
      rewrite (sfltb_negb a c Ha Hc)
  end.

Ltac split_not_nan H :=
  unfold thresholds_not_nan in H; simpl in H;
  rewrite !andb_true_iff, !negb_true_iff in H;
  destruct H as [[[[? ?] [? ?]] [? ?]] [? ?]].

Ltac split_ordered H :=
  unfold ordered in H; simpl in H; rewrite !andb_true_iff in H;
  destruct H as [[[? ?] ?] ?].

Ltac use_trans x lo hi :=
  match goal with
  | Hord : SFleb lo hi = true |- _ =>
      let T := fresh "T" in
      let X := fresh "X" in
      assert (T : SFleb x lo = true -> SFleb x hi = true)
        by (intros X; exact (le_trans x lo hi X Hord))
  end.

Ltac case_bools :=
  repeat match goal with
  | |- context [SFleb ?x ?y] => destruct (SFleb x y) eqn:?
  end; simpl in *.

Ltac absurd_trans :=
  repeat match goal with
  | T : true = true -> false = true |- _ => specialize (T eq_refl)
  end; try discriminate; try congruence.

(** No combination applies to a pixel with a NaN. *)
Lemma applies_not_nan th b j h a :
  applies th b j h a = true -> isnan h = false /\ isnan a = false.
Proof.
  destruct th as [[h_lo h_hi] [a_l1 a_h1] [a_l2 a_h2] [a_l3 a_h3]].
  unfold applies, in_h_bin, in_alpha_sub, alpha_pair; simpl.
  rewrite andb_true_iff. intros [Eh Ea]. split.
  - destruct b; rewrite ?andb_true_iff in Eh;
      [apply le_not_nan in Eh | destruct Eh as [_ Eh]; apply le_not_nan in Eh
      | apply lt_not_nan in Eh]; tauto.
  - destruct b; simpl in Ea;
      (destruct j; rewrite ?andb_true_iff in Ea;
       [apply le_not_nan in Ea | destruct Ea as [_ Ea]; apply le_not_nan in Ea
       | apply lt_not_nan in Ea]; tauto).
Qed.

(** With ordered thresholds, a pixel outside the mask to which the
    combination [(b, j)] applies gets the zone of the table. *)
Lemma pixel_class_table th b j h a :
  ordered th = true -> applies th b j h a = true ->
  pixel_class th h a false = zone_table b j.
Proof.
  intros Hord Happ. pose proof (ordered_not_nan _ Hord) as Hnn.
  pose proof (applies_not_nan _ _ _ _ _ Happ) as Hh.
  destruct Hh as [Hh Ha].
  destruct th as [[h_lo h_hi] [a_l1 a_h1] [a_l2 a_h2] [a_l3 a_h3]].
  split_not_nan Hnn. split_ordered Hord.
  unfold applies, in_h_bin, in_alpha_sub, alpha_pair, pixel_class in *;
    simpl in *.
  to_leb h a Hh Ha.
  destruct b, j; simpl in Happ; revert Happ; to_leb h a Hh Ha;
    unfold le in *;
    use_trans h h_lo h_hi;
    use_trans a a_l1 a_h1;
    use_trans a a_l2 a_h2;
    use_trans a a_l3 a_h3;
    case_bools; intros; absurd_trans; reflexivity.
Qed.

Lemma pixel_class_masked th h a : pixel_class th h a true = 0%N.
Proof.
  destruct th as [[h_lo h_hi] [a_l1 a_h1] [a_l2 a_h2] [a_l3 a_h3]].
  reflexivity.
Qed.

(** The class of a pixel outside the mask is the zone of the combination
    that applies to it and is assigned last, and 0 when none applies. *)
Lemma pixel_class_applies th h a :
  pixel_class th h a false =
    (if applies th HighH Sub2 h a then 3
     else if applies th HighH Sub1 h a then 6
     else if applies th HighH Sub0 h a then 9
     else if applies th MediumH Sub2 h a then 2
     else if applies th MediumH Sub1 h a then 5
     else if applies th MediumH Sub0 h a then 8
     else if applies th LowH Sub2 h a then 1
     else if applies th LowH Sub1 h a then 4
     else if applies th LowH Sub0 h a then 7
     else 0)%N.
Proof.
  destruct th as [[h_lo h_hi] [a_l1 a_h1] [a_l2 a_h2] [a_l3 a_h3]].
  unfold pixel_class, applies, in_h_bin, in_alpha_sub, alpha_pair; simpl.
  unfold gt, lt, le. rewrite <- !andb_assoc.
  repeat match goal with
  | |- context [if ?c then _ else _] => destruct c eqn:?
  end; reflexivity.
Qed.

Lemma pixel_class_some_bin th h a :
  (pixel_class th h a false = 0%N /\ forall b j, applies th b j h a = false)
  \/ exists b j, applies th b j h a = true /\
                 pixel_class th h a false = zone_table b j.
Proof.
  rewrite pixel_class_applies.
  destruct (applies th HighH Sub2 h a) eqn:E1; [right; exists HighH, Sub2; auto|].
  destruct (applies th HighH Sub1 h a) eqn:E2; [right; exists HighH, Sub1; auto|].
  destruct (applies th HighH Sub0 h a) eqn:E3; [right; exists HighH, Sub0; auto|].
  destruct (applies th MediumH Sub2 h a) eqn:E4; [right; exists MediumH, Sub2; auto|].
  destruct (applies th MediumH Sub1 h a) eqn:E5; [right; exists MediumH, Sub1; auto|].
  destruct (applies th MediumH Sub0 h a) eqn:E6; [right; exists MediumH, Sub0; auto|].
  destruct (applies th LowH Sub2 h a) eqn:E7; [right; exists LowH, Sub2; auto|].
  destruct (applies th LowH Sub1 h a) eqn:E8; [right; exists LowH, Sub1; auto|].
  destruct (applies th LowH Sub0 h a) eqn:E9; [right; exists LowH, Sub0; auto|].
  left. split; [reflexivity|]. intros [] []; assumption.
Qed.

Lemma zone_table_range b j : (1 <= zone_table b j <= 9)%N.
Proof. destruct b, j; simpl; lia. Qed.

Lemma pixel_class_range th h a m : (pixel_class th h a m <= 9)%N.
Proof.
  destruct m; [rewrite pixel_class_masked; lia|].
  destruct (pixel_class_some_bin th h a) as [[-> _]|(b & j & _ & ->)];
    [lia | apply zone_table_range].
Qed.

Lemma pixel_class_nan th h a :
  isnan h = true \/ isnan a = true -> pixel_class th h a false = 0%N.
Proof.
  intros Hn.
  destruct (pixel_class_some_bin th h a) as [[-> _]|(b & j & E & _)];
    [reflexivity|].
  apply applies_not_nan in E. destruct E, Hn; congruence.
Qed.

(** When nothing is NaN, some combination applies. *)
Lemma applies_exists th h a :
  thresholds_not_nan th = true -> isnan h = false -> isnan a = false ->
  exists b j, applies th b j h a = true.
Proof.
  intros Hnn Hh Ha.
  destruct th as [[h_lo h_hi] [a_l1 a_h1] [a_l2 a_h2] [a_l3 a_h3]].
  split_not_nan Hnn.
  assert (Hb : exists b, in_h_bin
            {| h_thresh := (h_lo, h_hi); alpha_thresh_low_h := (a_l1, a_h1);
               alpha_thresh_med_h := (a_l2, a_h2);
               alpha_thresh_high_h := (a_l3, a_h3) |} b h = true).
  { unfold in_h_bin; simpl.
    destruct (le h h_lo) eqn:E1; [exists LowH; reflexivity|].
    destruct (le h h_hi) eqn:E2;
      [exists MediumH | exists HighH]; unfold le in E1, E2;
      to_leb h a Hh Ha; rewrite ?E1, ?E2; reflexivity. }
  destruct Hb as [b Hb].
  assert (Hj : forall p, isnan (fst p) = false -> isnan (snd p) = false ->
                         exists j, in_alpha_sub p j a = true).
  { intros [lo hi] Hlo Hhi; simpl in *. unfold in_alpha_sub.
    destruct (le a lo) eqn:E1; [exists Sub0; reflexivity|].
    destruct (le a hi) eqn:E2;
      [exists Sub1 | exists Sub2]; unfold le in E1, E2;
      to_leb h a Hh Ha; rewrite ?E1, ?E2; reflexivity. }
  destruct (Hj (alpha_pair {| h_thresh := (h_lo, h_hi);
                              alpha_thresh_low_h := (a_l1, a_h1);
                              alpha_thresh_med_h := (a_l2, a_h2);
                              alpha_thresh_high_h := (a_l3, a_h3) |} b))
    as [j Hj']; [destruct b; assumption .. |].
  exists b, j. unfold applies. rewrite Hb, Hj'. reflexivity.
Qed.

(** With ordered thresholds, at most one combination applies. *)
Lemma applies_unique th b j b' j' h a :
  ordered th = true ->
  applies th b j h a = true -> applies th b' j' h a = true ->
  b' = b /\ j' = j.
Proof.
  intros Hord E E'.
  pose proof (pixel_class_table th b j h a Hord E) as P.
  pose proof (pixel_class_table th b' j' h a Hord E') as P'.
  rewrite P in P'. destruct b, j, b', j'; simpl in P'; try discriminate; auto.
Qed.

(** The class map of a call, pixel by pixel. *)
Lemma classify_pixels s H alpha_deg Hs As th nodata_mask Ms :
  grids_in s H alpha_deg Hs As ->
  mask_of s Hs As nodata_mask = Some Ms ->
  returns_class_map H alpha_deg th nodata_mask s (class_map th Hs As Ms) /\
  length (class_map th Hs As Ms) = length Hs /\
  forall (i : nat) h a (m : bool),
    Hs !! i = Some h -> As !! i = Some a -> Ms !! i = Some m ->
    class_map th Hs As Ms !! i = Some (pixel_class th h a m).
Proof.
  intros (EH & EA & L) EM. split; [|split].
  - eapply classify_9zones_returns; eauto.
  - apply class_map_length; [exact L|]. eapply mask_of_length; eauto.
  - intros. apply class_map_lookup; assumption.
Qed.

(** ** Properties of classify_9zones *)

(** C1.  For every pixel outside the nodata mask whose entropy and alpha
    are not NaN, [classify_9zones] assigns the zone of the table for the
    combination of entropy bin and alpha sub-bin that applies to the pixel
    (the thresholds being ordered, as the bins of the specification are):
    the Low bin maps its three sub-bins to 7, 4, 1, the Medium bin to
    8, 5, 2, the High bin to 9, 6, 3.  With the default thresholds,
    (0.3, 60) is of class 1, (0.7, 45) of class 5 and (0.95, 40) of
    class 9, in float32 as in float64. *)
Theorem zone_table_fidelity :
  (forall s H alpha_deg Hs As th nodata_mask Ms,
     grids_in s H alpha_deg Hs As ->
     mask_of s Hs As nodata_mask = Some Ms ->
     ordered th = true ->
     exists out,
       returns_class_map H alpha_deg th nodata_mask s out /\
       forall (i : nat) h a,
         Hs !! i = Some h -> As !! i = Some a -> Ms !! i = Some false ->
         isnan h = false -> isnan a = false ->
         (exists b j, applies th b j h a = true) /\
         (forall b j, applies th b j h a = true ->
                      out !! i = Some (zone_table b j)))
  /\ (zone_table LowH Sub0, zone_table LowH Sub1, zone_table LowH Sub2)
     = (7, 4, 1)%N
  /\ (zone_table MediumH Sub0, zone_table MediumH Sub1, zone_table MediumH Sub2)
     = (8, 5, 2)%N
  /\ (zone_table HighH Sub0, zone_table HighH Sub1, zone_table HighH Sub2)
     = (9, 6, 3)%N
  /\ (forall dt,
        call_classify_9zones
          [pyfloat dt 3 10; pyfloat dt 7 10; pyfloat dt 95 100]
          [pyfloat dt 60 1; pyfloat dt 45 1; pyfloat dt 40 1]
          (default_thresholds dt) None
        = Ok [1; 5; 9]%N).
Proof.
  split; [|repeat split; try reflexivity; intros []; vm_compute; reflexivity].
  intros s H alpha_deg Hs As th nodata_mask Ms HG HM Hord.
  destruct (classify_pixels s H alpha_deg Hs As th nodata_mask Ms HG HM)
    as (R & _ & P).
  exists (class_map th Hs As Ms). split; [exact R|].
  intros i h a EH EA EM Hh Ha. split.
  - apply applies_exists; auto using ordered_not_nan.
  - intros b j E. rewrite (P i h a false EH EA EM).
    f_equal. apply pixel_class_table; assumption.
Qed.

Lemma zone_table_fidelity_witness :
  exists out,
    returns_class_map 0 1 F32.defaults None
      [AFloat [F32.x0_3]; AFloat [F32.x60]] out /\
    out !! 0%nat = Some 1%N.
Proof.
  destruct (proj1 zone_table_fidelity
              [AFloat [F32.x0_3]; AFloat [F32.x60]]
              0%nat 1%nat [F32.x0_3] [F32.x60]
              F32.defaults None [false])
    as (out & R & P).
  - repeat split; reflexivity.
  - vm_compute; reflexivity.
  - vm_compute; reflexivity.
  - exists out. split; [exact R|].
    destruct (P 0%nat F32.x0_3 F32.x60)
      as [_ Q]; try (vm_compute; reflexivity).
    apply (Q LowH Sub2). vm_compute; reflexivity.
Defined.

(** C2.  Bin boundaries belong to the lower bin.  With ordered thresholds
    ([h_low < h_high], and [a_low <= a_high] in each bin), for every pixel
    outside the mask: if [H == h_low] the pixel is in the Low bin and not
    in the Medium bin, and its class is one of the Low bin; if
    [H == h_high] it is in the Medium bin and not in the High bin, and its
    class is one of the Medium bin; if alpha equals the lower alpha
    threshold of the pixel's bin, the pixel is in the first sub-bin and not
    in the middle one, and its class is 7, 8 or 9 according to the bin. *)
Theorem boundary_belongs_to_lower_bin
    s H alpha_deg Hs As th nodata_mask Ms :
  grids_in s H alpha_deg Hs As ->
  mask_of s Hs As nodata_mask = Some Ms ->
  ordered th = true -> h_strictly_ordered th = true ->
  exists out,
    returns_class_map H alpha_deg th nodata_mask s out /\
    forall (i : nat) h a,
      Hs !! i = Some h -> As !! i = Some a -> Ms !! i = Some false ->
      (eqb h (fst (h_thresh th)) = true ->
         in_h_bin th LowH h = true /\ in_h_bin th MediumH h = false /\
         (isnan a = false ->
          exists j, out !! i = Some (zone_table LowH j))) /\
      (eqb h (snd (h_thresh th)) = true ->
         in_h_bin th MediumH h = true /\ in_h_bin th HighH h = false /\
         (isnan a = false ->
          exists j, out !! i = Some (zone_table MediumH j))) /\
      (forall b,
         in_h_bin th b h = true ->
         eqb a (fst (alpha_pair th b)) = true ->
         in_alpha_sub (alpha_pair th b) Sub0 a = true /\
         in_alpha_sub (alpha_pair th b) Sub1 a = false /\
         out !! i = Some (zone_table b Sub0) /\
         zone_table b Sub0 = match b with LowH => 7 | MediumH => 8 | HighH => 9 end%N).
Proof.
  intros HG HM Hord Hstrict.
  destruct (classify_pixels s H alpha_deg Hs As th nodata_mask Ms HG HM)
    as (R & _ & P).
  exists (class_map th Hs As Ms). split; [exact R|].
  intros i h a EH EA EM. rewrite (P i h a false EH EA EM).
  pose proof (ordered_not_nan _ Hord) as Hnn.
  assert (Sub : forall b, in_h_bin th b h = true -> isnan a = false ->
                  exists j, Some (pixel_class th h a false) = Some (zone_table b j)).
  { intros b Hb Ha.
    assert (exists j, in_alpha_sub (alpha_pair th b) j a = true) as [j Hj].
    { assert (Hl : isnan (fst (alpha_pair th b)) = false /\
                   isnan (snd (alpha_pair th b)) = false).
      { destruct th as [[h_lo h_hi] [a_l1 a_h1] [a_l2 a_h2] [a_l3 a_h3]].
        split_not_nan Hnn. destruct b; simpl; auto. }
      destruct (alpha_pair th b) as [lo hi]; simpl in Hl. destruct Hl as [Hlo Hhi].
      unfold in_alpha_sub.
      destruct (le a lo) eqn:E1; [exists Sub0; reflexivity|].
      destruct (le a hi) eqn:E2; [exists Sub1|exists Sub2];
        unfold lt, gt, le in *; rewrite ?(sfltb_negb a lo Ha Hlo),
          ?(sfltb_negb a hi Ha Hhi), ?E1, ?E2; reflexivity. }
    exists j. f_equal. apply pixel_class_table; [assumption|].
    unfold applies. rewrite Hb, Hj. reflexivity. }
  destruct th as [[h_lo h_hi] [a_l1 a_h1] [a_l2 a_h2] [a_l3 a_h3]] eqn:Eth.
  rewrite <- Eth in *.
  assert (Ehd : h_thresh th = (h_lo, h_hi)) by (rewrite Eth; reflexivity).
  assert (Hlt : lt h_lo h_hi = true).
  { unfold h_strictly_ordered in Hstrict. rewrite Ehd in Hstrict. exact Hstrict. }
  rewrite Ehd; simpl. split; [|split].
  - intros E.
    assert (B1 : in_h_bin th LowH h = true).
    { unfold in_h_bin. rewrite Ehd. apply eqb_le, E. }
    split; [exact B1|]. split; [|intros Ha; exact (Sub LowH B1 Ha)].
    unfold in_h_bin. rewrite Ehd.
    change (lt h_lo h) with (gt h h_lo).
    rewrite (le_gt_false h h_lo (eqb_le _ _ E)). reflexivity.
  - intros E.
    assert (B2 : in_h_bin th MediumH h = true).
    { unfold in_h_bin. rewrite Ehd.
      rewrite (lt_le_trans h_lo h_hi h Hlt (eqb_ge _ _ E)).
      rewrite (eqb_le _ _ E). reflexivity. }
    split; [exact B2|]. split; [|intros Ha; exact (Sub MediumH B2 Ha)].
    unfold in_h_bin. rewrite Ehd. apply le_gt_false, eqb_le, E.
  - intros b Hb E.
    assert (J0 : in_alpha_sub (alpha_pair th b) Sub0 a = true).
    { destruct (alpha_pair th b) as [lo hi]. simpl in *. apply eqb_le, E. }
    split; [exact J0|]. split; [|split].
    + destruct (alpha_pair th b) as [lo hi]. simpl in *.
      change (lt lo a) with (gt a lo).
      rewrite (le_gt_false a lo (eqb_le _ _ E)). reflexivity.
    + f_equal. apply pixel_class_table; [assumption|].
      unfold applies. rewrite Hb, J0. reflexivity.
    + destruct b; reflexivity.
Qed.

Lemma boundary_belongs_to_lower_bin_witness :
  exists out,
    returns_class_map 0 1 F64.defaults None
      [AFloat [F64.x0_5; F64.x0_9];
       AFloat [F64.x42_5; F64.x40]] out /\
    out !! 0%nat = Some 7%N /\ out !! 1%nat = Some 8%N.
Proof.
  destruct (boundary_belongs_to_lower_bin
              [AFloat [F64.x0_5; F64.x0_9];
               AFloat [F64.x42_5; F64.x40]]
              0%nat 1%nat
              [F64.x0_5; F64.x0_9]
              [F64.x42_5; F64.x40]
              F64.defaults None [false; false])
    as (out & R & P).
  - repeat split; reflexivity.
  - vm_compute; reflexivity.
  - vm_compute; reflexivity.
  - vm_compute; reflexivity.
  - exists out. split; [exact R|]. split.
    + destruct (P 0%nat F64.x0_5 F64.x42_5)
        as (_ & _ & Q); try (vm_compute; reflexivity).
      destruct (Q LowH) as (_ & _ & X & _); try (vm_compute; reflexivity).
      exact X.
    + destruct (P 1%nat F64.x0_9 F64.x40)
        as (_ & _ & Q); try (vm_compute; reflexivity).
      destruct (Q MediumH) as (_ & _ & X & _); try (vm_compute; reflexivity).
      exact X.
Defined.

(** C3, as stated, fails: a pixel outside a supplied nodata mask whose
    entropy is NaN is in no bin, and keeps class 0.  Here the grids have
    the single pixel (NaN, 30) and the supplied mask is false there. *)
Lemma exactly_one_class_counterexample :
  ~ (forall s H alpha_deg Hs As th nodata_mask Ms,
       grids_in s H alpha_deg Hs As ->
       mask_of s Hs As nodata_mask = Some Ms ->
       ordered th = true ->
       exists out,
         returns_class_map H alpha_deg th nodata_mask s out /\
         forall (i : nat) h a,
           Hs !! i = Some h -> As !! i = Some a -> Ms !! i = Some false ->
           (exists b j, applies th b j h a = true) /\
           exists c, out !! i = Some c /\ (1 <= c <= 9)%N).
Proof.
  intros X.
  destruct (X [AFloat [nan]; AFloat [F32.x30]; ABool [false]]
              0%nat 1%nat [nan] [F32.x30]
              F32.defaults (Some 2%nat) [false])
    as (out & (cls & s' & E & L) & P).
  - repeat split; reflexivity.
  - reflexivity.
  - vm_compute; reflexivity.
  - vm_compute in E. injection E as <- <-. vm_compute in L.
    injection L as <-.
    destruct (P 0%nat nan F32.x30 eq_refl eq_refl eq_refl)
      as (_ & c & Ec & Hc).
    vm_compute in Ec. injection Ec as <-. lia.
Qed.

(** C3, amended.  For every pixel outside the nodata mask whose entropy
    and alpha are not NaN, with ordered thresholds, exactly one of the nine
    combinations applies, and the class of the pixel is the zone of that
    combination, a value from 1 to 9. *)
Theorem exactly_one_class s H alpha_deg Hs As th nodata_mask Ms :
  grids_in s H alpha_deg Hs As ->
  mask_of s Hs As nodata_mask = Some Ms ->
  ordered th = true ->
  exists out,
    returns_class_map H alpha_deg th nodata_mask s out /\
    forall (i : nat) h a,
      Hs !! i = Some h -> As !! i = Some a -> Ms !! i = Some false ->
      isnan h = false -> isnan a = false ->
      exists b j,
        applies th b j h a = true /\
        (forall b' j', applies th b' j' h a = true -> b' = b /\ j' = j) /\
        out !! i = Some (zone_table b j) /\
        (1 <= zone_table b j <= 9)%N.
Proof.
  intros HG HM Hord.
  destruct (classify_pixels s H alpha_deg Hs As th nodata_mask Ms HG HM)
    as (R & _ & P).
  exists (class_map th Hs As Ms). split; [exact R|].
  intros i h a EH EA EM Hh Ha.
  destruct (applies_exists th h a (ordered_not_nan _ Hord) Hh Ha)
    as (b & j & E).
  exists b, j. split; [exact E|]. split; [|split].
  - intros b' j' E'. eapply applies_unique; eauto.
  - rewrite (P i h a false EH EA EM). f_equal.
    apply pixel_class_table; assumption.
  - apply zone_table_range.
Qed.

Lemma exactly_one_class_witness :
  exists out,
    returns_class_map 0 1 F32.defaults (Some 2%nat)
      [AFloat [F32.x0_7]; AFloat [F32.x45];
       ABool [false]] out /\
    out !! 0%nat = Some 5%N.
Proof.
  destruct (exactly_one_class
              [AFloat [F32.x0_7]; AFloat [F32.x45];
               ABool [false]]
              0%nat 1%nat [F32.x0_7] [F32.x45]
              F32.defaults (Some 2%nat) [false])
    as (out & R & P).
  - repeat split; reflexivity.
  - reflexivity.
  - vm_compute; reflexivity.
  - exists out. split; [exact R|].
    destruct (P 0%nat F32.x0_7 F32.x45)
      as (b & j & E & U & O & _); try (vm_compute; reflexivity).
    destruct (U MediumH Sub1) as [<- <-]; [vm_compute; reflexivity|].
    exact O.
Defined.

(** C4.  Wherever the supplied nodata mask is true, the class is 0,
    whatever the entropy and alpha of the pixel (NaN and out-of-range
    values included) and whatever the thresholds; the class that the bins
    give to the pixel is overridden. *)
Theorem nodata_dominance s H alpha_deg Hs As th m Ms :
  grids_in s H alpha_deg Hs As ->
  s !! m = Some (ABool Ms) -> length Ms = length Hs ->
  exists out,
    returns_class_map H alpha_deg th (Some m) s out /\
    forall (i : nat), Ms !! i = Some true -> out !! i = Some 0%N.
Proof.
  intros HG Em L.
  assert (HM : mask_of s Hs As (Some m) = Some Ms).
  { simpl. rewrite Em, L, Nat.eqb_refl. reflexivity. }
  destruct (classify_pixels s H alpha_deg Hs As th (Some m) Ms HG HM)
    as (R & _ & P).
  exists (class_map th Hs As Ms). split; [exact R|].
  intros i EM. destruct HG as (_ & _ & LA).
  pose proof (lookup_lt_Some _ _ _ EM) as Hi.
  destruct (lookup_lt_is_Some_2 Hs i ltac:(lia)) as [h EH].
  destruct (lookup_lt_is_Some_2 As i ltac:(lia)) as [a EA].
  rewrite (P i h a true EH EA EM), pixel_class_masked. reflexivity.
Qed.

Lemma nodata_dominance_witness :
  exists out,
    returns_class_map 0 1 F32.defaults (Some 2%nat)
      [AFloat [F32.x0_3; nan]; AFloat [F32.x60; inf];
       ABool [true; true]] out /\
    out !! 0%nat = Some 0%N /\ out !! 1%nat = Some 0%N.
Proof.
  destruct (nodata_dominance
              [AFloat [F32.x0_3; nan];
               AFloat [F32.x60; inf]; ABool [true; true]]
              0%nat 1%nat [F32.x0_3; nan]
              [F32.x60; inf]
              F32.defaults 2%nat [true; true])
    as (out & R & P).
  - repeat split; reflexivity.
  - reflexivity.
  - reflexivity.
  - exists out. split; [exact R|]. split; apply P; reflexivity.
Defined.

(** C5.  Called without a nodata mask, [classify_9zones] applies the mask
    that is true exactly at the pixels where the entropy or alpha is NaN:
    the class map is the one of a call that is given this mask, it is 0
    at a pixel where either value is NaN, and it is what the bins give
    elsewhere. *)
Theorem derived_nodata_mask s H alpha_deg Hs As th :
  grids_in s H alpha_deg Hs As ->
  exists out,
    returns_class_map H alpha_deg th None s out /\
    (forall m, s !! m = Some (ABool (default_mask Hs As)) ->
               returns_class_map H alpha_deg th (Some m) s out) /\
    forall (i : nat) h a,
      Hs !! i = Some h -> As !! i = Some a ->
      default_mask Hs As !! i = Some (isnan h || isnan a) /\
      out !! i = Some (if isnan h || isnan a then 0%N
                       else pixel_class th h a false).
Proof.
  intros HG.
  destruct (classify_pixels s H alpha_deg Hs As th None _ HG eq_refl)
    as (R & _ & P).
  exists (class_map th Hs As (default_mask Hs As)).
  split; [exact R|]. split.
  - intros m Em.
    apply (classify_pixels s H alpha_deg Hs As th (Some m) _ HG).
    simpl. rewrite Em.
    replace (length (default_mask Hs As)) with (length Hs);
      [rewrite Nat.eqb_refl; reflexivity|].
    destruct HG as (_ & _ & L). unfold default_mask. lens.
  - intros i h a EH EA.
    pose proof (default_mask_lookup Hs As i h a EH EA) as EM.
    split; [exact EM|]. rewrite (P i h a _ EH EA EM).
    destruct (isnan h || isnan a); [rewrite pixel_class_masked|]; reflexivity.
Qed.

Lemma derived_nodata_mask_witness :
  exists out,
    returns_class_map 0 1 F32.defaults None
      [AFloat [nan; F32.x0_95];
       AFloat [F32.x30; F32.x40]] out /\
    out !! 0%nat = Some 0%N /\ out !! 1%nat = Some 9%N.
Proof.
  destruct (derived_nodata_mask
              [AFloat [nan; F32.x0_95];
               AFloat [F32.x30; F32.x40]]
              0%nat 1%nat [nan; F32.x0_95]
              [F32.x30; F32.x40]
              F32.defaults)
    as (out & R & _ & P).
  - repeat split; reflexivity.
  - exists out. split; [exact R|]. split.
    + apply (P 0%nat nan F32.x30); reflexivity.
    + destruct (P 1%nat F32.x0_95 F32.x40)
        as [_ Q]; try reflexivity.
      rewrite Q. vm_compute. reflexivity.
Defined.

(** C8.  [classify_9zones] returns for all float values of the grids and
    of the thresholds, ordered or not, NaN or not: on grids of one shape
    (and a mask of that shape, if one is supplied) it raises nothing and
    returns a class map of the shape of the grids with values from 0 to 9.
    A pixel in the mask is 0; a pixel outside the mask has the zone of a
    combination that applies to it, or 0 when none applies. *)
Theorem classify_total s H alpha_deg Hs As th nodata_mask Ms :
  grids_in s H alpha_deg Hs As ->
  mask_of s Hs As nodata_mask = Some Ms ->
  exists out,
    returns_class_map H alpha_deg th nodata_mask s out /\
    length out = length Hs /\
    (forall (i : nat) c, out !! i = Some c -> (c <= 9)%N) /\
    (forall (i : nat), Ms !! i = Some true -> out !! i = Some 0%N) /\
    (forall (i : nat) h a,
       Hs !! i = Some h -> As !! i = Some a -> Ms !! i = Some false ->
       (out !! i = Some 0%N /\ forall b j, applies th b j h a = false) \/
       (exists b j, applies th b j h a = true /\
                    out !! i = Some (zone_table b j))).
Proof.
  intros HG HM.
  destruct (classify_pixels s H alpha_deg Hs As th nodata_mask Ms HG HM)
    as (R & L & P).
  destruct HG as (_ & _ & LA).
  assert (LM : length Ms = length Hs) by (eapply mask_of_length; eauto).
  assert (Px : forall i : nat, i < length Hs ->
             exists h a m, Hs !! i = Some h /\ As !! i = Some a /\
                           Ms !! i = Some m).
  { intros i Hi.
    destruct (lookup_lt_is_Some_2 Hs i ltac:(lia)) as [h EH].
    destruct (lookup_lt_is_Some_2 As i ltac:(lia)) as [a EA].
    destruct (lookup_lt_is_Some_2 Ms i ltac:(lia)) as [m EM].
    eauto 6. }
  exists (class_map th Hs As Ms). split; [exact R|]. split; [exact L|].
  split; [|split].
  - intros i c Ec. pose proof (lookup_lt_Some _ _ _ Ec) as Hi.
    destruct (Px i ltac:(lia)) as (h & a & m & EH & EA & EM).
    rewrite (P i h a m EH EA EM) in Ec. injection Ec as <-.
    apply pixel_class_range.
  - intros i EM. pose proof (lookup_lt_Some _ _ _ EM) as Hi.
    destruct (Px i ltac:(lia)) as (h & a & m & EH & EA & EM').
    rewrite (P i h a m EH EA EM').
    assert (m = true) by congruence. subst m.
    rewrite pixel_class_masked. reflexivity.
  - intros i h a EH EA EM. rewrite (P i h a false EH EA EM).
    destruct (pixel_class_some_bin th h a) as [[-> N]|(b & j & E & ->)];
      [left; auto | right; eauto].
Qed.

Lemma classify_total_witness :
  exists out,
    returns_class_map 0 1
      {| h_thresh := (F64.x0_9, F64.x0_5);
         alpha_thresh_low_h := (F64.x52_5, F64.x42_5);
         alpha_thresh_med_h := (nan, F64.x50);
         alpha_thresh_high_h := (F64.x45, F64.x55) |}
      None
      [AFloat [F64.x1_5; F64.x0_7; S754_infinity true];
       AFloat [F64.m20; F64.x45; inf]] out /\
    length out = 3%nat.
Proof.
  destruct (classify_total
      [AFloat [F64.x1_5; F64.x0_7; S754_infinity true];
       AFloat [F64.m20; F64.x45; inf]]
      0%nat 1%nat
      [F64.x1_5; F64.x0_7; S754_infinity true]
      [F64.m20; F64.x45; inf]
      {| h_thresh := (F64.x0_9, F64.x0_5);
         alpha_thresh_low_h := (F64.x52_5, F64.x42_5);
         alpha_thresh_med_h := (nan, F64.x50);
         alpha_thresh_high_h := (F64.x45, F64.x55) |}
      None [false; false; false])
    as (out & R & L & _).
  - repeat split; reflexivity.
  - vm_compute; reflexivity.
  - exists out. split; [exact R | exact L].
Defined.

(** ** autodetect_alpha_units and convert_alpha_to_degrees *)

Section Nanmax.

Lemma np_fmax_nan (x y : float) :
  isnan (np_fmax x y) = true <-> isnan x = true /\ isnan y = true.
Proof.
  unfold np_fmax, ge. change (SFleb y x) with (le y x).
  destruct (le y x) eqn:E; simpl.
  - apply le_not_nan in E. destruct E as [Ey Ex]. rewrite Ex, Ey.
    intuition congruence.
  - destruct (isnan y) eqn:Ey; simpl; rewrite ?Ey; intuition congruence.
Qed.

Lemma np_fmax_cases (x y : float) : np_fmax x y = x \/ np_fmax x y = y.
Proof. unfold np_fmax. destruct (ge x y || isnan y); auto. Qed.

Lemma np_fmax_ge_l (x y : float) :
  isnan x = false -> le x (np_fmax x y) = true.
Proof.
  intros Hx. unfold np_fmax, ge. change (SFleb y x) with (le y x).
  destruct (le y x) eqn:E; simpl; [apply le_refl, Hx|].
  destruct (isnan y) eqn:Ey; [apply le_refl, Hx|].
  destruct (le_total x y Hx Ey); congruence.
Qed.

Lemma np_fmax_ge_r (x y : float) :
  isnan y = false -> le y (np_fmax x y) = true.
Proof.
  intros Hy. unfold np_fmax, ge. change (SFleb y x) with (le y x).
  destruct (le y x) eqn:E; simpl; [exact E|].
  rewrite Hy. apply le_refl, Hy.
Qed.

(** [fold_left np_fmax l x] is NaN only if every element is, and otherwise
    it is an element that is not NaN and bounds those that are not. *)
Lemma fold_fmax_spec (l : list float) : forall x : float,
  let m := fold_left np_fmax l x in
  (isnan m = true -> forall y, y ∈ x :: l -> isnan y = true) /\
  (isnan m = false ->
     m ∈ x :: l /\ forall y, y ∈ x :: l -> isnan y = false -> le y m = true).
Proof.
  induction l as [|y l IH]; intros x; simpl.
  - split.
    + intros Hm z Hz. apply list_elem_of_singleton in Hz. congruence.
    + intros Hm. split; [apply list_elem_of_here|].
      intros z Hz Hn. apply list_elem_of_singleton in Hz. subst z.
      apply le_refl, Hm.
  - destruct (IH (np_fmax x y)) as [IH1 IH2]. split.
    + intros Hm z Hz.
      pose proof (IH1 Hm (np_fmax x y) (list_elem_of_here _ _)) as Hxy.
      apply np_fmax_nan in Hxy. destruct Hxy as [Hx Hy].
      apply elem_of_cons in Hz. destruct Hz as [->|Hz]; [exact Hx|].
      apply elem_of_cons in Hz. destruct Hz as [->|Hz]; [exact Hy|].
      apply IH1; [exact Hm | apply list_elem_of_further, Hz].
    + intros Hm. destruct (IH2 Hm) as [In B]. split.
      * apply elem_of_cons in In. destruct In as [E|In].
        -- destruct (np_fmax_cases x y) as [F|F]; rewrite E, F.
           ++ apply list_elem_of_here.
           ++ apply list_elem_of_further, list_elem_of_here.
        -- do 2 apply list_elem_of_further. exact In.
      * intros z Hz Hn.
        assert (Hxy : isnan x = false \/ isnan y = false ->
                      isnan (np_fmax x y) = false).
        { intros Hor. destruct (isnan (np_fmax x y)) eqn:E; [|reflexivity].
          apply np_fmax_nan in E. destruct E, Hor; congruence. }
        apply elem_of_cons in Hz. destruct Hz as [->|Hz].
        { eapply le_trans; [apply np_fmax_ge_l, Hn|].
          apply B; [apply list_elem_of_here | auto]. }
        apply elem_of_cons in Hz. destruct Hz as [->|Hz].
        { eapply le_trans; [apply np_fmax_ge_r, Hn|].
          apply B; [apply list_elem_of_here | auto]. }
        apply B; [apply list_elem_of_further, Hz | exact Hn].
Qed.

(** The comparison of [np.nanmax] with a bound is that of any greatest
    element among those that are not NaN. *)
Lemma nanmax_le (x : float) (l : list float) (m c : float) :
  is_max_of not_nan (x :: l) m ->
  le (fold_left np_fmax l x) c = le m c.
Proof.
  intros (Hin & Hm & Hmax). unfold not_nan in *.
  apply negb_true_iff in Hm.
  destruct (fold_fmax_spec l x) as [S1 S2]. cbv zeta in S1, S2.
  destruct (isnan (fold_left np_fmax l x)) eqn:E.
  - rewrite (S1 eq_refl m Hin) in Hm. discriminate.
  - destruct (S2 eq_refl) as [In B].
    apply le_congr_l.
    + apply Hmax; [exact In | rewrite E; reflexivity].
    + apply B; assumption.
Qed.

End Nanmax.

(** A greatest element, checked by computation. *)
Lemma is_max_of_check keep (a : list float) (m : float) :
  m ∈ a -> keep m = true ->
  forallb (fun x => implb (keep x) (le x m)) a = true ->
  is_max_of keep a m.
Proof.
  intros Hin Hk Hall. split; [exact Hin|]. split; [exact Hk|].
  intros x Hx Hkx. rewrite forallb_forall in Hall.
  specialize (Hall x (proj1 (list_elem_of_In _ _) Hx)).
  rewrite Hkx in Hall. exact Hall.
Qed.

Lemma exec_np_nanmax s r x l :
  s !! r = Some (AFloat (x :: l)) ->
  exec (np_nanmax r) s (fold_left np_fmax l x) s.
Proof.
  intros E. eapply exec_bind; [apply exec_get_f, E | apply exec_ret].
Qed.

Lemma exec_np_degrees dt s r a :
  s !! r = Some (AFloat a) ->
  exec (np_degrees dt r) s (length s) (s ++ [AFloat (degrees_of dt <$> a)]).
Proof.
  intros E. eapply exec_bind; [apply exec_get_f, E | apply exec_alloc].
Qed.

Lemma exec_convert dt s r a :
  s !! r = Some (AFloat a) -> a <> [] ->
  exec (convert_alpha_to_degrees dt r) s
    (match units_of dt a with radians => length s | degrees => r end)
    (match units_of dt a with
     | radians => s ++ [AFloat (degrees_of dt <$> a)]
     | degrees => s
     end).
Proof.
  intros E Ha. destruct a as [|x l]; [congruence|].
  unfold convert_alpha_to_degrees, autodetect_alpha_units.
  eapply exec_bind.
  { eapply exec_bind; [apply exec_np_nanmax, E | apply exec_ret]. }
  unfold units_of.
  destruct (le (fold_left np_fmax l x) (pyfloat dt 17 10)).
  - apply exec_np_degrees, E.
  - apply exec_ret.
Qed.

(** C6, as stated, fails: the bound 1.7 is compared with the greatest
    element that is not NaN, and an infinity is such an element.  The grid
    [1.0, +inf] has greatest finite element 1.0, and is returned as it
    is. *)
Lemma unit_autodetection_counterexample :
  ~ (forall dt s alpha_arr a m,
       s !! alpha_arr = Some (AFloat a) ->
       is_max_of isfinite a m ->
       le m (pyfloat dt 17 10) = true ->
       convert_alpha_to_degrees dt alpha_arr s
       = Ok (length s, s ++ [AFloat (degrees_of dt <$> a)])).
Proof.
  intros X.
  specialize (X float32 [AFloat [F32.x1; inf]] 0%nat
                [F32.x1; inf] F32.x1 eq_refl).
  assert (Hmax : is_max_of isfinite [F32.x1; inf] F32.x1).
  { apply is_max_of_check; [apply list_elem_of_here | reflexivity
                            | vm_compute; reflexivity]. }
  specialize (X Hmax eq_refl). vm_compute in X. discriminate.
Qed.

(** C6, amended.  The conversion is a decision for the whole grid, taken
    on the greatest of its elements that are not NaN, infinities included:
    if that element is at most 1.7, the result is a new grid in which
    every element is the product of the old one and 180/pi; if it exceeds
    1.7, the grid itself is returned and nothing is changed. *)
Theorem unit_autodetection dt s alpha_arr a m :
  s !! alpha_arr = Some (AFloat a) ->
  is_max_of not_nan a m ->
  (le m (pyfloat dt 17 10) = true ->
     convert_alpha_to_degrees dt alpha_arr s
     = Ok (length s, s ++ [AFloat (degrees_of dt <$> a)]) /\
     forall (i : nat) x, a !! i = Some x ->
       (degrees_of dt <$> a) !! i = Some (mul dt x (rad2deg dt))) /\
  (gt m (pyfloat dt 17 10) = true ->
     convert_alpha_to_degrees dt alpha_arr s = Ok (alpha_arr, s)).
Proof.
  intros E Hmax.
  assert (Ha : a <> []).
  { destruct Hmax as (Hin & _). intros ->. apply not_elem_of_nil in Hin. exact Hin. }
  pose proof (exec_convert dt s alpha_arr a E Ha) as X.
  destruct a as [|x l]; [congruence|].
  unfold units_of in X. rewrite (nanmax_le x l m _ Hmax) in X.
  split.
  - intros Hle. rewrite Hle in X. split; [exact X|].
    intros i y Ey. rewrite list_lookup_fmap, Ey. reflexivity.
  - intros Hgt. rewrite (gt_le_false _ _ Hgt) in X. exact X.
Qed.

Lemma unit_autodetection_witness :
  convert_alpha_to_degrees float64 0
    [AFloat [F64.x1_2; nan; F64.x0_5]]
  = Ok (1%nat,
        [AFloat [F64.x1_2; nan; F64.x0_5];
         AFloat (degrees_of float64 <$>
                   [F64.x1_2; nan; F64.x0_5])])
  /\ convert_alpha_to_degrees float64 0
       [AFloat [F64.x80; nan; F64.x0_5]]
     = Ok (0%nat, [AFloat [F64.x80; nan; F64.x0_5]]).
Proof.
  split.
  - refine (proj1 (proj1 (unit_autodetection float64
              [AFloat [F64.x1_2; nan; F64.x0_5]]
              0%nat [F64.x1_2; nan; F64.x0_5]
              F64.x1_2 eq_refl _) _)).
    + apply is_max_of_check; [apply list_elem_of_here | reflexivity
                              | vm_compute; reflexivity].
    + vm_compute; reflexivity.
  - refine (proj2 (unit_autodetection float64
              [AFloat [F64.x80; nan; F64.x0_5]]
              0%nat [F64.x80; nan; F64.x0_5]
              F64.x80 eq_refl _) _).
    + apply is_max_of_check; [apply list_elem_of_here | reflexivity
                              | vm_compute; reflexivity].
    + vm_compute; reflexivity.
Defined.

(** ** read_raw_binary *)

Lemma length_file_elements contents dt bo num :
  length (file_elements contents dt bo num) = num.
Proof.
  unfold file_elements. rewrite length_fmap, length_seq. reflexivity.
Qed.

Lemma itemsize_pos dt : 0 < itemsize dt.
Proof. destruct dt; simpl; lia. Qed.

(** The file holds [count] complete elements when its length is at least
    [count] times the size of an element. *)
Lemma complete_elements (len n count : nat) :
  0 < n -> (count <= len / n <-> count * n <= len).
Proof.
  intros Hn. split.
  - intros Hc. pose proof (Nat.Div0.mul_div_le len n). nia.
  - intros Hc. apply Nat.div_le_lower_bound; lia.
Qed.

Lemma nbytes_1 dt n :
  nbytes dt [n]
  = if (n =? 0)%Z then Z.of_nat (itemsize dt)
    else (Z.of_nat (itemsize dt) * n)%Z.
Proof. reflexivity. Qed.

Lemma nbytes_2 dt h w :
  nbytes dt [h; w]
  = let n := if (h =? 0)%Z then Z.of_nat (itemsize dt)
             else (Z.of_nat (itemsize dt) * h)%Z in
    if (w =? 0)%Z then n else (n * w)%Z.
Proof. reflexivity. Qed.

(** A grid that is not too big has dimensions and a number of elements
    that fit [ssize_t], and is not too big as a flat array either. *)
Lemma nbytes_grid dt h w :
  (0 <= h)%Z -> (0 <= w)%Z -> (nbytes dt [h; w] <= ssize_max)%Z ->
  (h <= ssize_max)%Z /\ (w <= ssize_max)%Z /\
  (w * h <= ssize_max)%Z /\ (nbytes dt [w * h] <= ssize_max)%Z.
Proof.
  intros Hh Hw. rewrite nbytes_2, !nbytes_1. cbv zeta.
  pose proof (itemsize_pos dt) as Hn.
  assert (Hmax : (0 < ssize_max)%Z) by reflexivity.
  set (I := Z.of_nat (itemsize dt)).
  assert (HI : (1 <= I)%Z) by (subst I; lia).
  clearbody I. revert Hmax. generalize ssize_max. intros M Hmax.
  destruct (Z.eqb_spec h 0) as [Eh|Nh], (Z.eqb_spec w 0) as [Ew|Nw],
    (Z.eqb_spec (w * h) 0) as [E|N]; intros B; repeat split; nia.
Qed.

Lemma fits_ssize_iff n :
  fits_ssize n = true <-> (ssize_min <= n <= ssize_max)%Z.
Proof. unfold fits_ssize. rewrite andb_true_iff, !Z.leb_le. reflexivity. Qed.

(** The result of [read_raw_binary] for a grid that NumPy can create. *)
Lemma read_raw_binary_grid can_alloc contents width height dt bo :
  (0 <= width)%Z -> (0 <= height)%Z ->
  (nbytes dt [height; width] <= ssize_max)%Z ->
  can_alloc dt (width * height)%Z = true ->
  read_raw_binary can_alloc contents width height dt bo
  = if (Z.of_nat (length contents)
        <? width * height * Z.of_nat (itemsize dt))%Z
    then Raise (ValueError RawFileSizeMismatch)
    else Ok ((Z.to_nat height, Z.to_nat width),
             file_elements contents dt bo (Z.to_nat (width * height))).
Proof.
  intros Hw Hh Hb Ha.
  pose proof (itemsize_pos dt) as Hn.
  destruct (nbytes_grid dt height width Hh Hw Hb) as (Bh & Bw & Bc & Bf).
  assert (Hmin : (ssize_min < 0)%Z) by reflexivity.
  assert (Hcount : (0 <= width * height)%Z) by nia.
  pose proof (complete_elements (length contents) (itemsize dt)
                (Z.to_nat (width * height)) Hn) as Hc.
  unfold read_raw_binary, np_fromfile.
  assert (fits_ssize (width * height) = true) as ->
    by (apply fits_ssize_iff; lia).
  destruct (Z.ltb_spec (width * height) 0) as [|_]; [lia|]. simpl.
  unfold array_too_big.
  destruct (Z.ltb_spec ssize_max (nbytes dt [(width * height)%Z])) as [|_];
    [lia|].
  rewrite Ha. simpl. rewrite length_file_elements.
  destruct (Z.ltb_spec (Z.of_nat (length contents))
              (width * height * Z.of_nat (itemsize dt))) as [Hlt|Hge].
  - assert (Hne : Z.of_nat (Nat.min (Z.to_nat (width * height))
                              (length contents / itemsize dt))
                  <> (width * height)%Z).
    { intros E.
      assert (H : Z.to_nat (width * height) <= length contents / itemsize dt)
        by lia.
      apply Hc in H. nia. }
    apply Z.eqb_neq in Hne. rewrite Hne. reflexivity.
  - assert (Hle : Z.to_nat (width * height) <= length contents / itemsize dt)
      by (apply Hc; nia).
    rewrite Nat.min_l by exact Hle.
    rewrite Z2Nat.id by exact Hcount. rewrite Z.eqb_refl. simpl.
    unfold reshape.
    assert (fits_ssize height = true) as -> by (apply fits_ssize_iff; lia).
    assert (fits_ssize width = true) as -> by (apply fits_ssize_iff; lia).
    simpl.
    destruct (Z.ltb_spec height 0) as [|_]; [lia|].
    destruct (Z.ltb_spec width 0) as [|_]; [lia|]. simpl.
    rewrite length_file_elements, Z2Nat.id by exact Hcount.
    replace (height * width)%Z with (width * height)%Z by lia.
    rewrite Z.eqb_refl. simpl. unfold array_too_big.
    destruct (Z.ltb_spec ssize_max (nbytes dt [height; width])) as [|_];
      [lia|].
    reflexivity.
Qed.

(** A count beyond [ssize_t] is refused by [np.fromfile] before the file is
    looked at. *)
Lemma read_raw_binary_overflow can_alloc contents width height dt bo :
  fits_ssize (width * height) = false ->
  read_raw_binary can_alloc contents width height dt bo = Raise OverflowError.
Proof.
  intros E. unfold read_raw_binary, np_fromfile. rewrite E. reflexivity.
Qed.

(** C7, as stated, fails: a file longer than the declared grid is read
    without error.  A file of 8 bytes read as a 1 x 1 grid of float32
    gives the grid of its first element, on a machine that can allocate
    it. *)
Lemma raw_size_mismatch_counterexample :
  ~ (forall can_alloc contents width height dt bo,
       Z.of_nat (length contents)
         <> (width * height * Z.of_nat (itemsize dt))%Z ->
       exists e,
         read_raw_binary can_alloc contents width height dt bo = Raise e).
Proof.
  intros X.
  destruct (X (fun _ _ => true)
              [x9a; x99; x99; x3e; x00; x00; x80; x3f]%byte 1%Z 1%Z
              float32 little) as [e E].
  - simpl. lia.
  - vm_compute in E. discriminate.
Qed.

(** C7, amended.  For declared dimensions that are not negative and a grid
    that NumPy can create (its size in bytes fits [ssize_t], and the array
    of width x height elements can be allocated), [read_raw_binary] fails
    with the size-mismatch error exactly when the file is shorter than
    width x height elements; a file at least that long gives the grid of its
    first width x height elements, of the declared shape.  When
    width x height is beyond [ssize_t], the call fails with the
    OverflowError of [np.fromfile] instead, whatever the file holds. *)
Theorem raw_size_mismatch can_alloc contents width height dt bo :
  (0 <= width)%Z -> (0 <= height)%Z ->
  let count := (width * height)%Z in
  let need := (count * Z.of_nat (itemsize dt))%Z in
  ((nbytes dt [height; width] <= ssize_max)%Z ->
   can_alloc dt count = true ->
   ((Z.of_nat (length contents) < need)%Z ->
      read_raw_binary can_alloc contents width height dt bo
      = Raise (ValueError RawFileSizeMismatch)) /\
   ((need <= Z.of_nat (length contents))%Z ->
      read_raw_binary can_alloc contents width height dt bo
      = Ok ((Z.to_nat height, Z.to_nat width),
            file_elements contents dt bo (Z.to_nat count)) /\
      length (file_elements contents dt bo (Z.to_nat count))
      = (Z.to_nat height * Z.to_nat width)%nat)) /\
  ((ssize_max < count)%Z ->
     read_raw_binary can_alloc contents width height dt bo
     = Raise OverflowError).
Proof.
  intros Hw Hh count need. split.
  - intros Hb Ha.
    pose proof (read_raw_binary_grid can_alloc contents width height dt bo
                  Hw Hh Hb Ha) as E.
    fold count in E. fold need in E. split.
    + intros Hlt. rewrite E.
      destruct (Z.ltb_spec (Z.of_nat (length contents)) need); [reflexivity|lia].
    + intros Hge. rewrite E.
      destruct (Z.ltb_spec (Z.of_nat (length contents)) need); [lia|].
      split; [reflexivity|].
      rewrite length_file_elements. subst count. nia.
  - intros Hbig. apply read_raw_binary_overflow.
    unfold fits_ssize. fold count.
    destruct (Z.leb_spec count ssize_max); [lia|]. apply andb_false_r.
Qed.

Lemma raw_size_mismatch_witness :
  read_raw_binary (fun _ _ => true)
    [x9a; x99; x99; x3e; x00; x00; x80]%byte 2 1 float32 little
  = Raise (ValueError RawFileSizeMismatch)
  /\ read_raw_binary (fun _ _ => true)
       [x9a; x99; x99; x3e; x00; x00; x80; x3f; x00]%byte 2 1 float32 little
     = Ok ((1%nat, 2%nat), [F32.x0_3; F32.x1])
  /\ read_raw_binary (fun _ _ => true) [] 4294967296 4294967296 float32 little
     = Raise OverflowError.
Proof.
  split; [|split].
  - destruct (proj1 (raw_size_mismatch (fun _ _ => true)
                    [x9a; x99; x99; x3e; x00; x00; x80]%byte 2 1 float32 little
                    ltac:(lia) ltac:(lia))) as [E _].
    + vm_compute. discriminate.
    + reflexivity.
    + apply E. simpl. lia.
  - destruct (proj1 (raw_size_mismatch (fun _ _ => true)
                    [x9a; x99; x99; x3e; x00; x00; x80; x3f; x00]%byte
                    2 1 float32 little ltac:(lia) ltac:(lia))) as [_ X].
    + vm_compute. discriminate.
    + reflexivity.
    + destruct X as [E _].
      * simpl. lia.
      * rewrite E. vm_compute. reflexivity.
  - apply (proj2 (raw_size_mismatch (fun _ _ => true) []
                    4294967296 4294967296 float32 little
                    ltac:(lia) ltac:(lia))).
    vm_compute. reflexivity.
Defined.

(** ** main: the nodata mask, the clamp and the call of the classifier *)

Section Clamp.

Variable dt : dtype.

Lemma clamp_above (x : float) : gt x (one dt) = true -> clamp dt x = one dt.
Proof.
  intros Hx. unfold clamp. rewrite Hx.
  destruct (one_positive dt) as (_ & -> & _). reflexivity.
Qed.

Lemma le_zero_one : le zero (one dt) = true.
Proof. destruct dt; vm_compute; reflexivity. Qed.

Lemma clamp_below (x : float) : lt x zero = true -> clamp dt x = zero.
Proof.
  intros Hx. unfold clamp.
  assert (Hg : gt x (one dt) = false).
  { apply le_gt_false, lt_le. eapply lt_le_trans; [exact Hx | apply le_zero_one]. }
  rewrite Hg, Hx. reflexivity.
Qed.

Lemma clamp_one : clamp dt (one dt) = one dt.
Proof. destruct dt; vm_compute; reflexivity. Qed.

Lemma clamp_zero : clamp dt zero = zero.
Proof. destruct dt; vm_compute; reflexivity. Qed.

(** The two assignments of the clamp, on the whole grid. *)
Lemma clamp_grid (Hs : list float) :
  assign ((fun x => lt x zero) <$>
            assign ((fun x => gt x (one dt)) <$> Hs) (one dt) Hs)
         zero
         (assign ((fun x => gt x (one dt)) <$> Hs) (one dt) Hs)
  = clamp dt <$> Hs.
Proof.
  rewrite (assign_fmap_self (fun x => gt x (one dt))).
  rewrite (assign_fmap_self (fun x => lt x zero)).
  rewrite <- list_fmap_compose. reflexivity.
Qed.

Lemma isnan_clamp (x : float) : isnan (clamp dt x) = isnan x.
Proof.
  unfold clamp. destruct (gt x (one dt)) eqn:E1.
  - apply lt_not_nan in E1. destruct E1 as [_ ->].
    destruct (one_positive dt) as (N1 & L1 & _). rewrite L1, N1. reflexivity.
  - destruct (lt x zero) eqn:E2; [|reflexivity].
    apply lt_not_nan in E2. destruct E2 as [-> _]. reflexivity.
Qed.

End Clamp.

(** One run of the pipeline on grids of one shape: the class map is
    [main_class_map], allocated last; the entropy grid has been clamped in
    place and the alpha grid is as it was loaded. *)
Lemma main_exec dt Hs As nodata nodata2 th :
  length As = length Hs -> As <> [] ->
  exists s3,
    exec (main dt 0 1 nodata nodata2 th) [AFloat Hs; AFloat As]
         (length s3)
         (s3 ++ [AUInt8 (main_class_map dt Hs As nodata nodata2 th)]) /\
    s3 !! 0 = Some (AFloat (clamp dt <$> Hs)) /\
    s3 !! 1 = Some (AFloat As).
Proof.
  intros L HA.
  set (s0 := [AFloat Hs; AFloat As]).
  pose proof (exec_convert dt s0 1 As eq_refl HA) as Xc.
  set (m := main_mask dt Hs As nodata nodata2).
  set (deg := main_alpha_deg dt As).
  set (Hc := clamp dt <$> Hs).
  unfold main.
  assert (Hcase : exists (r : nat) (tl : list ndarray),
             exec (convert_alpha_to_degrees dt 1) s0 r (s0 ++ tl) /\
             (s0 ++ tl) !! r = Some (AFloat deg) /\ r <> 0).
  { subst deg. unfold main_alpha_deg. destruct (units_of dt As).
    - exists 2, [AFloat (degrees_of dt <$> As)].
      split; [exact Xc|]. split; [reflexivity|discriminate].
    - exists 1, []. split; [rewrite app_nil_r; exact Xc|].
      split; [reflexivity|discriminate]. }
  destruct Hcase as (r & tl & Ec & Er & Hr).
  set (s1 := s0 ++ tl) in *.
  assert (E0 : s1 !! 0 = Some (AFloat Hs)) by reflexivity.
  assert (E1 : s1 !! 1 = Some (AFloat As)) by reflexivity.
  assert (L1 : 2 <= length s1) by (subst s1; rewrite length_app; simpl; lia).
  set (s2 := s1 ++ [ABool m]).
  assert (L2 : length s2 = S (length s1))
    by (subst s2; rewrite length_app; simpl; lia).
  set (s3 := <[0 := AFloat Hc]> s2).
  assert (H0 : s3 !! 0 = Some (AFloat Hc))
    by (subst s3; apply list_lookup_insert_eq; lia).
  exists s3. split; [|split]; [|exact H0|].
  2: { subst s3. rewrite list_lookup_insert_ne by lia.
       subst s2. apply lookup_app_l_Some. exact E1. }
  eapply exec_bind; [exact Ec|].
  eapply exec_bind.
  { instantiate (1 := s1). instantiate (1 := nodata_test dt nodata <$> Hs).
    destruct nodata; [apply exec_np_eq | apply exec_np_isnan]; exact E0. }
  eapply exec_bind.
  { instantiate (1 := s1). instantiate (1 := nodata_test dt nodata2 <$> As).
    destruct nodata2; [apply exec_np_eq | apply exec_np_isnan]; exact E1. }
  eapply exec_bind.
  { eapply exec_bind; [|apply exec_alloc].
    eapply exec_np_or; [apply exec_ret | apply exec_ret | lens]. }
  fold m. fold s2.
  eapply exec_bind.
  { eapply exec_setitem_f; [apply exec_np_gt|..].
    - apply lookup_app_l_Some. exact E0.
    - apply lookup_app_l_Some. exact E0.
    - lens. }
  eapply exec_bind.
  { eapply exec_setitem_f; [apply exec_np_lt|..].
    - apply list_lookup_insert_eq. rewrite ?length_app. simpl. lia.
    - apply list_lookup_insert_eq. rewrite ?length_app. simpl. lia.
    - lens. }
  rewrite list_insert_insert_eq, clamp_grid. fold Hc. fold s3.
  eapply exec_bind; [|apply exec_ret].
  unfold main_class_map. fold Hc deg m.
  eapply (classify_9zones_exec s3 0 r Hc deg).
  - exact H0.
  - subst s3. rewrite list_lookup_insert_ne by lia.
    apply lookup_app_l_Some. exact Er.
  - subst deg Hc. unfold main_alpha_deg.
    destruct (units_of dt As); lens.
  - assert (Em : s3 !! length s1 = Some (ABool m)).
    { subst s3. rewrite list_lookup_insert_ne by lia.
      subst s2. apply store_last_lookup. }
    unfold mask_of. rewrite Em.
    replace (length m) with (length Hc)
      by (subst m Hc; unfold main_mask; lens).
    rewrite Nat.eqb_refl. reflexivity.
Qed.

Lemma run_main_eq dt Hs As nodata nodata2 th :
  length As = length Hs -> As <> [] ->
  run_main dt Hs As nodata nodata2 th
  = Ok (main_class_map dt Hs As nodata nodata2 th).
Proof.
  intros L HA. unfold run_main.
  destruct (main_exec dt Hs As nodata nodata2 th L HA)
    as (s3 & X & _).
  unfold exec in X. rewrite X.
  unfold read_u8. rewrite store_last_lookup. reflexivity.
Qed.

(** C9, as stated, fails: the nodata mask is computed from the entropy
    grid before the clamp, so a value that is the declared nodata value is
    masked, and its clamped replacement is not.  With nodata value -9999,
    the grid [-9999] gives class 0 and the grid [0.0] gives class 7. *)
Lemma clamp_invariant_counterexample :
  ~ (forall dt Hs As nodata nodata2 th (i : nat) x y,
       length As = length Hs -> Hs !! i = Some x ->
       (gt x (one dt) = true /\ y = one dt) \/
       (lt x zero = true /\ y = zero) ->
       run_main dt (<[i := y]> Hs) As nodata nodata2 th
       = run_main dt Hs As nodata nodata2 th).
Proof.
  intros X.
  specialize (X float32 [F32.m9999] [F32.x30]
                (Some F64.m9999) None
                F64.defaults 0%nat
                F32.m9999 zero eq_refl eq_refl
                (or_intror (conj eq_refl eq_refl))).
  vm_compute in X. discriminate.
Qed.

(** C9, amended.  Two runs whose entropy grids differ only in that a value
    above 1.0 is replaced by 1.0, or a negative value by 0.0, give the
    same class map, provided the declared nodata value of the entropy
    raster, if there is one, does not tell the value from its replacement
    (without a declared nodata value this always holds). *)
Theorem clamp_invariant dt Hs As nodata nodata2 th (i : nat) x y :
  length As = length Hs -> Hs !! i = Some x ->
  (gt x (one dt) = true /\ y = one dt) \/ (lt x zero = true /\ y = zero) ->
  (forall nd, nodata = Some nd -> eqb y (cast dt nd) = eqb x (cast dt nd)) ->
  exists out,
    run_main dt Hs As nodata nodata2 th = Ok out /\
    run_main dt (<[i := y]> Hs) As nodata nodata2 th = Ok out.
Proof.
  intros L Ei Hxy Hnd.
  assert (HA : As <> []).
  { intros ->. apply lookup_lt_Some in Ei. simpl in L. lia. }
  exists (main_class_map dt Hs As nodata nodata2 th).
  split; [apply run_main_eq; assumption|].
  rewrite run_main_eq by (rewrite ?length_insert; assumption).
  f_equal. unfold main_class_map, main_mask.
  assert (Hc : clamp dt y = clamp dt x).
  { destruct Hxy as [[Hx ->]|[Hx ->]].
    - rewrite clamp_one, clamp_above; auto.
    - rewrite clamp_zero, clamp_below; auto. }
  assert (Hm : nodata_test dt nodata y = nodata_test dt nodata x).
  { destruct nodata as [nd|]; simpl; [apply Hnd; reflexivity|].
    rewrite <- (isnan_clamp dt y), <- (isnan_clamp dt x), Hc. reflexivity. }
  rewrite !list_fmap_insert, Hc, Hm.
  rewrite (list_insert_id (clamp dt <$> Hs))
    by (rewrite list_lookup_fmap, Ei; reflexivity).
  rewrite (list_insert_id (nodata_test dt nodata <$> Hs))
    by (rewrite list_lookup_fmap, Ei; reflexivity).
  reflexivity.
Qed.

Lemma clamp_invariant_witness :
  exists out,
    run_main float32 [F32.x1_05; F32.m0_1]
      [F32.x60; F32.x30]
      (Some F64.m9999) None F64.defaults
    = Ok out /\
    run_main float32 [F32.x1; F32.m0_1]
      [F32.x60; F32.x30]
      (Some F64.m9999) None F64.defaults
    = Ok out.
Proof.
  apply (clamp_invariant float32
           [F32.x1_05; F32.m0_1]
           [F32.x60; F32.x30]
           (Some F64.m9999) None F64.defaults
           0%nat F32.x1_05 F32.x1).
  - reflexivity.
  - reflexivity.
  - left. split; vm_compute; reflexivity.
  - intros nd [= <-]. vm_compute. reflexivity.
Defined.

(** ** What the classifier and the pipeline change in the store *)

(** C10.  [classify_9zones] does not mutate its inputs: after the call
    every array object that was in the store is as it was before, among
    them the entropy grid, the alpha grid and the supplied nodata mask; the
    class map is a new object, and each of its pixels is a function of the
    entropy, the alpha and the mask value of that pixel and of the
    thresholds.  In the pipeline the entropy grid that reaches the call is
    the loaded one clamped in place, and the loaded alpha grid is never
    written. *)
Theorem classify_frame :
  (forall s H alpha_deg Hs As th nodata_mask Ms,
     grids_in s H alpha_deg Hs As ->
     mask_of s Hs As nodata_mask = Some Ms ->
     exists cls s' out,
       classify_9zones H alpha_deg th nodata_mask s = Ok (cls, s') /\
       (forall r : nat, r < length s -> s' !! r = s !! r) /\
       s' !! H = Some (AFloat Hs) /\
       s' !! alpha_deg = Some (AFloat As) /\
       (forall m, nodata_mask = Some m -> s' !! m = Some (ABool Ms)) /\
       cls = length s /\
       s' !! cls = Some (AUInt8 out) /\
       forall (i : nat) h a (m : bool),
         Hs !! i = Some h -> As !! i = Some a -> Ms !! i = Some m ->
         out !! i = Some (pixel_class th h a m))
  /\
  (forall dt Hs As nodata nodata2 th,
     length As = length Hs -> As <> [] ->
     exists cls s',
       main dt 0 1 nodata nodata2 th [AFloat Hs; AFloat As]
       = Ok (cls, s') /\
       s' !! 0%nat = Some (AFloat (clamp dt <$> Hs)) /\
       s' !! 1%nat = Some (AFloat As)).
Proof.
  split.
  - intros s H alpha_deg Hs As th nodata_mask Ms HG HM.
    pose proof HG as (EH & EA & L).
    exists (length s), (s ++ [AUInt8 (class_map th Hs As Ms)]),
           (class_map th Hs As Ms).
    split; [eapply classify_9zones_exec; eauto|].
    split; [intros r Hr; apply lookup_app_l; exact Hr|].
    split; [apply lookup_app_l_Some, EH|].
    split; [apply lookup_app_l_Some, EA|].
    split.
    { intros m ->. simpl in HM. apply lookup_app_l_Some.
      destruct (s !! m) as [[?|m'|?]|] eqn:Em; try discriminate.
      destruct (Nat.eqb (length m') (length Hs)); [|discriminate].
      injection HM as <-. reflexivity. }
    split; [reflexivity|]. split; [apply store_last_lookup|].
    intros. apply class_map_lookup; assumption.
  - intros dt Hs As nodata nodata2 th L HA.
    destruct (main_exec dt Hs As nodata nodata2 th L HA)
      as (s3 & X & E0 & E1).
    exists (length s3),
           (s3 ++ [AUInt8 (main_class_map dt Hs As nodata nodata2 th)]).
    split; [exact X|].
    split; apply lookup_app_l_Some; assumption.
Qed.

Lemma classify_frame_witness :
  exists cls s',
    classify_9zones 0 1 F32.defaults (Some 2%nat)
      [AFloat [F32.x0_3]; AFloat [F32.x60]; ABool [false]] = Ok (cls, s') /\
    s' !! 0%nat = Some (AFloat [F32.x0_3]) /\
    s' !! 1%nat = Some (AFloat [F32.x60]) /\
    s' !! 2%nat = Some (ABool [false]).
Proof.
  destruct (proj1 classify_frame
              [AFloat [F32.x0_3]; AFloat [F32.x60]; ABool [false]]
              0%nat 1%nat [F32.x0_3] [F32.x60]
              F32.defaults (Some 2%nat) [false])
    as (cls & s' & out & E & _ & F0 & F1 & F2 & _).
  - repeat split; reflexivity.
  - reflexivity.
  - exists cls, s'. split; [exact E|]. split; [exact F0|].
    split; [exact F1|]. apply F2. reflexivity.
Defined.

(** * Further properties *)

(** ** classify_9zones *)

Lemma zone_table_inj b j b' j' :
  zone_table b j = zone_table b' j' -> b = b' /\ j = j'.
Proof. destruct b, j, b', j'; simpl; intros E; try discriminate E; auto. Qed.

Lemma class_map_lookup_inv th Hs As Ms (i : nat) c :
  class_map th Hs As Ms !! i = Some c ->
  exists h a (m : bool),
    Hs !! i = Some h /\ As !! i = Some a /\ Ms !! i = Some m /\
    c = pixel_class th h a m.
Proof.
  intros E. pose proof (lookup_lt_Some _ _ _ E) as Hi.
  assert (L : i < length Hs /\ i < length As /\ i < length Ms).
  { clear E. destruct th as [[h_lo h_hi] [a_l1 a_h1] [a_l2 a_h2] [a_l3 a_h3]].
    unfold class_map in Hi; simpl in Hi.
    rewrite length_assign in Hi.
    rewrite (length_assign _ 3%N) in Hi.
    match type of Hi with
    | context [length (assign ?m 6%N ?c)] =>
        generalize dependent (length (assign m 6%N c))
    end.
    intros n Hi. rewrite length_zip_with, !length_fmap in Hi. lia. }
  destruct L as (L1 & L2 & L3).
  destruct (lookup_lt_is_Some_2 Hs i L1) as [h EH].
  destruct (lookup_lt_is_Some_2 As i L2) as [a EA].
  destruct (lookup_lt_is_Some_2 Ms i L3) as [m EM].
  exists h, a, m. repeat split; try assumption.
  rewrite (class_map_lookup th Hs As Ms i h a m EH EA EM) in E. congruence.
Qed.

(** Every value of a class map is at most 9. *)
Lemma class_map_range th Hs As Ms (i : nat) c :
  class_map th Hs As Ms !! i = Some c -> (c <= 9)%N.
Proof.
  intros E. destruct (class_map_lookup_inv _ _ _ _ _ _ E)
    as (h & a & m & _ & _ & _ & ->).
  apply pixel_class_range.
Qed.

(** X1.  A class from 1 to 9 is given only to a pixel outside the mask to
    which the combination of that zone applies, whatever the thresholds
    (ordered or not): no pixel gets the zone of a bin it is not in. *)
Theorem class_only_in_its_bin s H alpha_deg Hs As th nodata_mask Ms :
  grids_in s H alpha_deg Hs As ->
  mask_of s Hs As nodata_mask = Some Ms ->
  exists out,
    returns_class_map H alpha_deg th nodata_mask s out /\
    forall (i : nat) h a b j,
      Hs !! i = Some h -> As !! i = Some a ->
      out !! i = Some (zone_table b j) ->
      Ms !! i = Some false /\ applies th b j h a = true.
Proof.
  intros HG HM.
  destruct (classify_pixels s H alpha_deg Hs As th nodata_mask Ms HG HM)
    as (R & _ & P).
  exists (class_map th Hs As Ms). split; [exact R|].
  intros i h a b j EH EA E.
  destruct (class_map_lookup_inv _ _ _ _ _ _ E)
    as (h' & a' & m & EH' & EA' & EM & Ec).
  assert (h' = h) by congruence. assert (a' = a) by congruence. subst h' a'.
  pose proof (zone_table_range b j) as Hr.
  destruct m.
  - rewrite pixel_class_masked in Ec. lia.
  - split; [exact EM|].
    destruct (pixel_class_some_bin th h a) as [[Z0 _]|(b' & j' & Ea & Et)].
    + rewrite Z0 in Ec. lia.
    + rewrite Et in Ec. apply zone_table_inj in Ec. destruct Ec as [-> ->].
      exact Ea.
Qed.

Lemma class_only_in_its_bin_witness :
  exists out,
    returns_class_map 0 1 F32.defaults None
      [AFloat [F32.x0_7]; AFloat [F32.x45]] out /\
    out !! 0%nat = Some 5%N /\
    applies F32.defaults MediumH Sub1 F32.x0_7 F32.x45 = true.
Proof.
  destruct (class_only_in_its_bin
              [AFloat [F32.x0_7]; AFloat [F32.x45]] 0%nat 1%nat
              [F32.x0_7] [F32.x45] F32.defaults None [false])
    as (out & R & P).
  - repeat split; reflexivity.
  - reflexivity.
  - assert (E : out !! 0%nat = Some 5%N).
    { destruct R as (cls & s' & Ec & Es).
      vm_compute in Ec. injection Ec as <- <-.
      vm_compute in Es. injection Es as <-. reflexivity. }
    exists out. split; [exact R|]. split; [exact E|].
    apply (P 0%nat F32.x0_7 F32.x45 MediumH Sub1 eq_refl eq_refl E).
Defined.

(** X2.  With thresholds that are not NaN, the class of a pixel is 0
    exactly when the pixel is in the mask or its entropy or its alpha is
    NaN: class 0 never comes from a value that is merely out of range. *)
Theorem class_zero_iff s H alpha_deg Hs As th nodata_mask Ms :
  grids_in s H alpha_deg Hs As ->
  mask_of s Hs As nodata_mask = Some Ms ->
  thresholds_not_nan th = true ->
  exists out,
    returns_class_map H alpha_deg th nodata_mask s out /\
    forall (i : nat) h a (m : bool),
      Hs !! i = Some h -> As !! i = Some a -> Ms !! i = Some m ->
      (out !! i = Some 0%N <->
       m = true \/ isnan h = true \/ isnan a = true).
Proof.
  intros HG HM Hnn.
  destruct (classify_pixels s H alpha_deg Hs As th nodata_mask Ms HG HM)
    as (R & _ & P).
  exists (class_map th Hs As Ms). split; [exact R|].
  intros i h a m EH EA EM. rewrite (P i h a m EH EA EM). split.
  - intros E. injection E as E.
    destruct m; [auto|]. right.
    destruct (isnan h) eqn:Nh; [auto|].
    destruct (isnan a) eqn:Na; [auto|]. exfalso.
    destruct (applies_exists th h a Hnn Nh Na) as (b & j & Ea).
    destruct (pixel_class_some_bin th h a) as [[_ N0]|(b' & j' & _ & Et)].
    + rewrite N0 in Ea. discriminate.
    + pose proof (zone_table_range b' j'). rewrite Et in E. lia.
  - intros [->|Hn]; [rewrite pixel_class_masked; reflexivity|].
    destruct m; [rewrite pixel_class_masked; reflexivity|].
    rewrite pixel_class_nan by exact Hn. reflexivity.
Qed.

Lemma class_zero_iff_witness :
  exists out,
    returns_class_map 0 1 F32.defaults (Some 2%nat)
      [AFloat [nan]; AFloat [F32.x30]; ABool [false]] out /\
    out !! 0%nat = Some 0%N.
Proof.
  destruct (class_zero_iff
              [AFloat [nan]; AFloat [F32.x30]; ABool [false]] 0%nat 1%nat
              [nan] [F32.x30] F32.defaults (Some 2%nat) [false])
    as (out & R & P).
  - repeat split; reflexivity.
  - reflexivity.
  - vm_compute; reflexivity.
  - exists out. split; [exact R|].
    apply (P 0%nat nan F32.x30 false eq_refl eq_refl eq_refl).
    right. left. reflexivity.
Defined.

(** ** convert_alpha_to_degrees *)

(** X4.  The edge cases of the unit detection: an empty grid makes
    [np.nanmax] raise ValueError, and a grid in which every element is NaN
    is taken for degrees and returned as it is. *)
Theorem unit_autodetection_edges dt s alpha_arr a :
  s !! alpha_arr = Some (AFloat a) ->
  (a = [] ->
   convert_alpha_to_degrees dt alpha_arr s = Raise (ValueError EmptyReduction)) /\
  (a <> [] -> (forall x, x ∈ a -> isnan x = true) ->
   convert_alpha_to_degrees dt alpha_arr s = Ok (alpha_arr, s)).
Proof.
  intros E. split.
  - intros ->. unfold convert_alpha_to_degrees, autodetect_alpha_units,
      np_nanmax, bind, get_f. rewrite E. reflexivity.
  - intros Ha Hnan.
    pose proof (exec_convert dt s alpha_arr a E Ha) as X.
    destruct a as [|x l]; [congruence|]. unfold units_of in X.
    assert (Hm : isnan (fold_left np_fmax l x) = true).
    { destruct (isnan (fold_left np_fmax l x)) eqn:Em; [reflexivity|].
      destruct (fold_fmax_spec l x) as [_ S2]. cbv zeta in S2.
      destruct (S2 Em) as [Hin _]. rewrite (Hnan _ Hin) in Em. discriminate. }
    destruct (fold_left np_fmax l x); try discriminate Hm. exact X.
Qed.

Lemma unit_autodetection_edges_witness :
  convert_alpha_to_degrees float32 0 [AFloat []]
  = Raise (ValueError EmptyReduction)
  /\ convert_alpha_to_degrees float32 0 [AFloat [nan; nan]]
     = Ok (0%nat, [AFloat [nan; nan]]).
Proof.
  split.
  - apply (proj1 (unit_autodetection_edges float32 [AFloat []] 0%nat []
                    eq_refl)). reflexivity.
  - apply (proj2 (unit_autodetection_edges float32 [AFloat [nan; nan]] 0%nat
                    [nan; nan] eq_refl)).
    + discriminate.
    + intros x Hx. apply list_elem_of_In in Hx. simpl in Hx.
      destruct Hx as [<-|[<-|[]]]; reflexivity.
Defined.

(** X5.  [convert_alpha_to_degrees] never writes to its argument: every
    object of the store is as before, and the result is either the
    argument itself or a new array of the same shape. *)
Theorem convert_frame dt s alpha_arr a :
  s !! alpha_arr = Some (AFloat a) -> a <> [] ->
  exists r s' a',
    convert_alpha_to_degrees dt alpha_arr s = Ok (r, s') /\
    (forall l : nat, l < length s -> s' !! l = s !! l) /\
    s' !! r = Some (AFloat a') /\ length a' = length a /\
    ((r = alpha_arr /\ s' = s /\ a' = a) \/
     (r = length s /\ a' = degrees_of dt <$> a)).
Proof.
  intros E Ha. pose proof (exec_convert dt s alpha_arr a E Ha) as X.
  destruct (units_of dt a).
  - exists (length s), (s ++ [AFloat (degrees_of dt <$> a)]),
           (degrees_of dt <$> a).
    split; [exact X|]. split; [intros l Hl; apply lookup_app_l, Hl|].
    split; [apply store_last_lookup|]. split; [apply length_fmap|].
    right. auto.
  - exists alpha_arr, s, a. split; [exact X|]. split; [auto|].
    split; [exact E|]. split; [reflexivity|]. left. auto.
Qed.

Lemma convert_frame_witness :
  exists r s' a',
    convert_alpha_to_degrees float64 0 [AFloat [F64.x1_2]] = Ok (r, s') /\
    s' !! 0%nat = Some (AFloat [F64.x1_2]) /\
    s' !! r = Some (AFloat a') /\ length a' = 1%nat.
Proof.
  destruct (convert_frame float64 [AFloat [F64.x1_2]] 0%nat [F64.x1_2]
              eq_refl ltac:(discriminate))
    as (r & s' & a' & E & F & Er & L & _).
  exists r, s', a'. split; [exact E|]. split; [|split; assumption].
  apply (F 0%nat). simpl. lia.
Defined.

(** ** Rounding never makes a NaN *)

Section Rounding.
Local Open Scope Z_scope.

Lemma shr_1_nonneg mrs : 0 <= shr_m mrs -> 0 <= shr_m (shr_1 mrs).
Proof.
  destruct mrs as [m r s]. destruct m as [|[p|p|]|[p|p|]]; simpl; lia.
Qed.

Lemma iter_pos_invariant {A} (P : A -> Prop) (f : A -> A) :
  (forall x, P x -> P (f x)) ->
  forall n x, P x -> P (SpecFloat.iter_pos f n x).
Proof.
  intros Hf. induction n as [n IH|n IH|]; intros x Hx; simpl; auto.
Qed.

Lemma shr_fexp_nonneg prec emax m e l :
  0 <= m -> 0 <= shr_m (fst (shr_fexp prec emax m e l)).
Proof.
  intros Hm. unfold shr_fexp, shr.
  assert (H0 : 0 <= shr_m (shr_record_of_loc m l))
    by (destruct l as [|[]]; exact Hm).
  destruct (fexp prec emax (Zdigits2 m + e) - e); simpl; try exact H0.
  apply (iter_pos_invariant (fun r => 0 <= shr_m r)); [apply shr_1_nonneg|exact H0].
Qed.

Lemma round_nearest_even_nonneg m l : 0 <= m -> 0 <= round_nearest_even m l.
Proof.
  intros Hm. unfold round_nearest_even.
  destruct l as [|[]]; try destruct (Z.even m); lia.
Qed.

Lemma binary_round_aux_not_nan prec emax sx mx ex lx :
  0 <= mx -> isnan (binary_round_aux prec emax sx mx ex lx) = false.
Proof.
  intros Hm. unfold binary_round_aux.
  pose proof (shr_fexp_nonneg prec emax mx ex lx Hm) as H1.
  destruct (shr_fexp prec emax mx ex lx) as [mrs' e']. simpl in H1.
  pose proof (shr_fexp_nonneg prec emax
                (round_nearest_even (shr_m mrs') (loc_of_shr_record mrs'))
                e' loc_Exact (round_nearest_even_nonneg _ _ H1)) as H2.
  destruct (shr_fexp prec emax _ e' loc_Exact) as [mrs'' e'']. simpl in H2.
  destruct (shr_m mrs''); try lia; [reflexivity|].
  destruct (e'' <=? emax - prec); reflexivity.
Qed.

(** The conversion to degrees keeps NaN and makes none. *)
Lemma isnan_degrees_of dt x : isnan (degrees_of dt x) = isnan x.
Proof.
  unfold degrees_of, mul.
  assert (Hc : exists m e, rad2deg dt = S754_finite false m e)
    by (destruct dt; vm_compute; eauto).
  destruct Hc as (m & e & ->).
  destruct x as [sx|sx| |sx mx ex]; simpl; try reflexivity.
  apply binary_round_aux_not_nan. lia.
Qed.

End Rounding.

(** ** main *)

Lemma main_class_map_lookup dt Hs As nodata nodata2 th (i : nat) h a :
  Hs !! i = Some h -> As !! i = Some a ->
  main_class_map dt Hs As nodata nodata2 th !! i
  = Some (pixel_class (cast_thresholds dt th) (clamp dt h)
            (match units_of dt As with
             | radians => degrees_of dt a
             | degrees => a
             end)
            (nodata_test dt nodata h || nodata_test dt nodata2 a)).
Proof.
  intros EH EA. unfold main_class_map. apply class_map_lookup.
  - rewrite list_lookup_fmap, EH. reflexivity.
  - unfold main_alpha_deg. destruct (units_of dt As).
    + rewrite list_lookup_fmap, EA. reflexivity.
    + exact EA.
  - unfold main_mask. rewrite lookup_zip_with, !list_lookup_fmap, EH, EA.
    reflexivity.
Qed.

(** X6.  In the pipeline a pixel is of class 0 whenever its loaded entropy
    or alpha is NaN, or compares equal to the declared nodata value of its
    raster; the nodata value is tested on the loaded values, before the
    clamp and the unit conversion.  A NaN pixel is 0 even when a nodata
    value is declared and the mask does not cover it. *)
Theorem main_nodata_is_zero dt Hs As nodata nodata2 th :
  length As = length Hs -> As <> [] ->
  exists out,
    run_main dt Hs As nodata nodata2 th = Ok out /\
    length out = length Hs /\
    forall (i : nat) h a,
      Hs !! i = Some h -> As !! i = Some a ->
      isnan h = true \/ isnan a = true \/
      nodata_test dt nodata h = true \/ nodata_test dt nodata2 a = true ->
      out !! i = Some 0%N.
Proof.
  intros L HA. exists (main_class_map dt Hs As nodata nodata2 th).
  split; [apply run_main_eq; assumption|]. split.
  - unfold main_class_map. rewrite class_map_length; [apply length_fmap|..].
    + unfold main_alpha_deg. destruct (units_of dt As); lens.
    + unfold main_mask. lens.
  - intros i h a EH EA Hz.
    rewrite (main_class_map_lookup dt Hs As nodata nodata2 th i h a EH EA).
    f_equal.
    destruct (nodata_test dt nodata h || nodata_test dt nodata2 a) eqn:Em;
      [apply pixel_class_masked|].
    apply orb_false_iff in Em. destruct Em as [E1 E2].
    apply pixel_class_nan.
    destruct Hz as [Hh|[Hn|[Hn|Hn]]]; try congruence.
    + left. rewrite isnan_clamp. exact Hh.
    + right. destruct (units_of dt As); [rewrite isnan_degrees_of|]; exact Hn.
Qed.

Lemma main_nodata_is_zero_witness :
  exists out,
    run_main float32 [nan; F32.m9999] [F32.x30; F32.x30]
      (Some F64.m9999) None F64.defaults = Ok out /\
    out !! 0%nat = Some 0%N /\ out !! 1%nat = Some 0%N.
Proof.
  destruct (main_nodata_is_zero float32 [nan; F32.m9999] [F32.x30; F32.x30]
              (Some F64.m9999) None F64.defaults eq_refl ltac:(discriminate))
    as (out & E & _ & P).
  exists out. split; [exact E|]. split.
  - apply (P 0%nat nan F32.x30 eq_refl eq_refl). left. reflexivity.
  - apply (P 1%nat F32.m9999 F32.x30 eq_refl eq_refl).
    right. right. left. vm_compute. reflexivity.
Defined.

(** X7.  Conversely, with thresholds that are not NaN, a pixel of the
    pipeline whose loaded values are neither NaN nor the declared nodata
    value gets a class from 1 to 9, however far out of range its entropy
    or alpha is. *)
Theorem main_valid_is_classified dt Hs As nodata nodata2 th :
  length As = length Hs -> As <> [] ->
  thresholds_not_nan (cast_thresholds dt th) = true ->
  exists out,
    run_main dt Hs As nodata nodata2 th = Ok out /\
    forall (i : nat) h a,
      Hs !! i = Some h -> As !! i = Some a ->
      isnan h = false -> isnan a = false ->
      nodata_test dt nodata h = false -> nodata_test dt nodata2 a = false ->
      exists c, out !! i = Some c /\ (1 <= c <= 9)%N.
Proof.
  intros L HA Hnn. exists (main_class_map dt Hs As nodata nodata2 th).
  split; [apply run_main_eq; assumption|].
  intros i h a EH EA Hh Ha N1 N2.
  rewrite (main_class_map_lookup dt Hs As nodata nodata2 th i h a EH EA).
  rewrite N1, N2. simpl. eexists. split; [reflexivity|].
  set (a' := match units_of dt As with
             | radians => degrees_of dt a | degrees => a end).
  assert (Ha' : isnan a' = false).
  { subst a'. destruct (units_of dt As); [rewrite isnan_degrees_of|]; exact Ha. }
  assert (Hh' : isnan (clamp dt h) = false) by (rewrite isnan_clamp; exact Hh).
  destruct (applies_exists _ _ _ Hnn Hh' Ha') as (b & j & Ea).
  destruct (pixel_class_some_bin (cast_thresholds dt th) (clamp dt h) a')
    as [[_ N0]|(b' & j' & _ & ->)].
  - rewrite N0 in Ea. discriminate.
  - apply zone_table_range.
Qed.

Lemma main_valid_is_classified_witness :
  exists out,
    run_main float32 [F32.x1_05] [F32.x60] (Some F64.m9999) None F64.defaults
    = Ok out /\
    exists c, out !! 0%nat = Some c /\ (1 <= c <= 9)%N.
Proof.
  destruct (main_valid_is_classified float32 [F32.x1_05] [F32.x60]
              (Some F64.m9999) None F64.defaults eq_refl ltac:(discriminate))
    as (out & E & P).
  - vm_compute; reflexivity.
  - exists out. split; [exact E|].
    apply (P 0%nat F32.x1_05 F32.x60); try reflexivity; vm_compute; reflexivity.
Defined.

(** The clamp brings every value that is not NaN into [0, 1] and keeps
    the values that are there. *)
Lemma clamp_range dt (x : float) :
  isnan x = false ->
  le zero (clamp dt x) = true /\ le (clamp dt x) (one dt) = true /\
  (le zero x = true -> le x (one dt) = true -> clamp dt x = x).
Proof.
  intros Hx. destruct (one_positive dt) as (N1 & L1 & G1).
  pose proof (le_zero_one dt) as L01.
  assert (Z0 : isnan zero = false) by reflexivity.
  unfold clamp. destruct (gt x (one dt)) eqn:E1.
  - rewrite L1. split; [exact L01|]. split; [apply le_refl, N1|].
    intros _ Hle. apply le_gt_false in Hle. congruence.
  - assert (Hle : le x (one dt) = true).
    { rewrite gt_negb_le in E1 by assumption.
      destruct (le x (one dt)); [reflexivity|discriminate]. }
    destruct (lt x zero) eqn:E2.
    + split; [reflexivity|]. split; [exact L01|].
      intros H0 _. change (gt zero x = true) in E2.
      apply gt_le_false in E2. congruence.
    + split; [|split; [exact Hle|reflexivity]].
      change (gt zero x = false) in E2.
      rewrite gt_negb_le in E2 by assumption.
      destruct (le zero x); [reflexivity|discriminate].
Qed.

(** X8.  After the run the entropy grid in the store is the loaded grid
    clamped in place: it has the same shape, a NaN is still a NaN, every
    other value lies in [0, 1], and a value that was in [0, 1] is
    unchanged. *)
Theorem main_clamps_in_place dt Hs As nodata nodata2 th :
  length As = length Hs -> As <> [] ->
  exists cls s' Hc,
    main dt 0 1 nodata nodata2 th [AFloat Hs; AFloat As] = Ok (cls, s') /\
    s' !! 0%nat = Some (AFloat Hc) /\ length Hc = length Hs /\
    forall (i : nat) h,
      Hs !! i = Some h ->
      exists x,
        Hc !! i = Some x /\ isnan x = isnan h /\
        (isnan h = false ->
         le zero x = true /\ le x (one dt) = true /\
         (le zero h = true -> le h (one dt) = true -> x = h)).
Proof.
  intros L HA.
  destruct (main_exec dt Hs As nodata nodata2 th L HA) as (s3 & X & E0 & _).
  exists (length s3),
         (s3 ++ [AUInt8 (main_class_map dt Hs As nodata nodata2 th)]),
         (clamp dt <$> Hs).
  split; [exact X|]. split; [apply lookup_app_l_Some, E0|].
  split; [apply length_fmap|].
  intros i h EH. exists (clamp dt h).
  split; [rewrite list_lookup_fmap, EH; reflexivity|].
  split; [apply isnan_clamp|]. apply clamp_range.
Qed.

Lemma main_clamps_in_place_witness :
  exists cls s' Hc,
    main float32 0 1 None None F64.defaults
      [AFloat [F32.x1_05; F32.x0_3]; AFloat [F32.x60; F32.x30]]
    = Ok (cls, s') /\
    s' !! 0%nat = Some (AFloat Hc) /\ length Hc = 2%nat.
Proof.
  destruct (main_clamps_in_place float32 [F32.x1_05; F32.x0_3]
              [F32.x60; F32.x30] None None F64.defaults
              eq_refl ltac:(discriminate))
    as (cls & s' & Hc & E & E0 & L & _).
  exists cls, s', Hc. auto.
Defined.

(** ** read_raw_binary *)

Lemma file_elements_app contents extra dt bo num :
  num * itemsize dt <= length contents ->
  file_elements (contents ++ extra) dt bo num
  = file_elements contents dt bo num.
Proof.
  intros Hc. pose proof (itemsize_pos dt) as Hn.
  unfold file_elements.
  apply list_fmap_ext. intros i x Hx.
  apply lookup_seq in Hx. destruct Hx as [-> Hi]. simpl.
  assert (Hb : S i * itemsize dt <= length contents) by nia.
  rewrite drop_app_le by lia.
  rewrite take_app_le by (rewrite length_drop; lia).
  reflexivity.
Qed.

Lemma np_fromfile_app can_alloc contents extra dt bo count :
  (0 <= count)%Z ->
  (count * Z.of_nat (itemsize dt) <= Z.of_nat (length contents))%Z ->
  np_fromfile can_alloc (contents ++ extra) dt bo count
  = np_fromfile can_alloc contents dt bo count.
Proof.
  intros H0 Hlen. pose proof (itemsize_pos dt) as Hn.
  unfold np_fromfile. destruct (Z.ltb_spec count 0) as [|_]; [lia|].
  assert (Hc : Z.to_nat count * itemsize dt <= length contents) by nia.
  assert (A1 : Z.to_nat count <= length contents / itemsize dt)
    by (apply complete_elements; assumption).
  assert (A2 : Z.to_nat count <= length (contents ++ extra) / itemsize dt).
  { apply complete_elements; [assumption|]. rewrite length_app. lia. }
  rewrite !Nat.min_l by assumption.
  rewrite file_elements_app by exact Hc. reflexivity.
Qed.

(** X9.  Bytes after the declared grid are never read: once a file holds
    the width x height elements, appending anything to it leaves the
    result of [read_raw_binary] the same. *)
Theorem raw_surplus_ignored can_alloc contents extra width height dt bo :
  (0 <= width)%Z -> (0 <= height)%Z ->
  (width * height * Z.of_nat (itemsize dt) <= Z.of_nat (length contents))%Z ->
  read_raw_binary can_alloc (contents ++ extra) width height dt bo
  = read_raw_binary can_alloc contents width height dt bo.
Proof.
  intros Hw Hh Hlen. unfold read_raw_binary.
  rewrite np_fromfile_app; [reflexivity|nia|exact Hlen].
Qed.

Lemma raw_surplus_ignored_witness :
  read_raw_binary (fun _ _ => true)
    ([x9a; x99; x99; x3e] ++ [x00; x00; x80])%byte 1 1 float32 little
  = read_raw_binary (fun _ _ => true)
      [x9a; x99; x99; x3e]%byte 1 1 float32 little.
Proof.
  apply raw_surplus_ignored; simpl; lia.
Defined.

(** X10.  A negative width or height never gives a grid: the call raises,
    whatever the file holds and whatever can be allocated.  When
    width x height does not fit [ssize_t] it raises the OverflowError of
    [np.fromfile]; when the two dimensions and their product fit, it raises
    a ValueError (the size mismatch, or the error of [reshape]) unless the
    array cannot be created for want of memory. *)
Theorem raw_negative_dimension_raises can_alloc contents width height dt bo :
  (width < 0)%Z \/ (height < 0)%Z ->
  exists e,
    read_raw_binary can_alloc contents width height dt bo = Raise e /\
    (fits_ssize (width * height) = false -> e = OverflowError) /\
    (fits_ssize width = true -> fits_ssize height = true ->
     fits_ssize (width * height) = true ->
     e = MemoryError \/ exists why, e = ValueError why).
Proof.
  intros Hneg. unfold read_raw_binary, np_fromfile.
  destruct (fits_ssize (width * height)) eqn:Fc; simpl;
    [|exists OverflowError; split; [reflexivity|split; [reflexivity|discriminate]]].
  destruct (array_too_big dt _); simpl;
    [exists (ValueError ArrayTooBig); split; [reflexivity|split; [discriminate|eauto]]|].
  destruct (can_alloc dt _); simpl;
    [|exists MemoryError; split; [reflexivity|split; [discriminate|eauto]]].
  destruct (Z.of_nat _ =? _)%Z; simpl;
    [|exists (ValueError RawFileSizeMismatch);
      split; [reflexivity|split; [discriminate|eauto]]].
  unfold reshape.
  destruct (fits_ssize height && fits_ssize width) eqn:Fd; simpl;
    [|exists (ValueError MaxDimensionExceeded);
      split; [reflexivity|split; [discriminate|eauto]]].
  assert (((height <? 0) || (width <? 0))%Z = true) as ->.
  { apply orb_true_iff. destruct Hneg; [right|left]; apply Z.ltb_lt; lia. }
  exists (ValueError CannotReshape).
  split; [reflexivity|split; [discriminate|eauto]].
Qed.

Lemma raw_negative_dimension_raises_witness :
  exists e,
    read_raw_binary (fun _ _ => true) [x9a; x99; x99; x3e]%byte (-1) (-4)
      float32 little
    = Raise e /\
    (e = MemoryError \/ exists why, e = ValueError why).
Proof.
  destruct (raw_negative_dimension_raises (fun _ _ => true)
              [x9a; x99; x99; x3e]%byte (-1) (-4) float32 little)
    as (e & E & _ & V).
  - left. lia.
  - exists e. split; [exact E|]. apply V; reflexivity.
Defined.

(** X11.  A grid declared with no pixels (width or height 0) that NumPy
    can create loads from any file, even an empty one, as an empty grid;
    the pipeline then fails on it in the unit detection, with the
    ValueError of [np.nanmax] on an empty array, before any mask or class
    is computed. *)
Theorem raw_empty_grid can_alloc contents width height dt bo :
  (0 <= width)%Z -> (0 <= height)%Z -> (width * height = 0)%Z ->
  (nbytes dt [height; width] <= ssize_max)%Z ->
  can_alloc dt 0%Z = true ->
  read_raw_binary can_alloc contents width height dt bo
  = Ok ((Z.to_nat height, Z.to_nat width), []) /\
  forall Hs nodata nodata2 th,
    run_main dt Hs [] nodata nodata2 th = Raise (ValueError EmptyReduction).
Proof.
  intros Hw Hh Hz Hb Ha. split; [|reflexivity].
  rewrite read_raw_binary_grid; [|assumption..|rewrite Hz; exact Ha].
  rewrite Hz, Z.mul_0_l.
  destruct (Z.ltb_spec (Z.of_nat (length contents)) 0); [lia|reflexivity].
Qed.

Lemma raw_empty_grid_witness :
  read_raw_binary (fun _ _ => true) [] 0 5 float32 little
  = Ok ((5%nat, 0%nat), []).
Proof.
  apply (proj1 (raw_empty_grid (fun _ _ => true) [] 0 5 float32 little
                  ltac:(lia) ltac:(lia) ltac:(lia)
                  ltac:(vm_compute; discriminate) eq_refl)).
Defined.

(** ** The colour table, the metadata and the preview *)

Section FoldInsert.

Context `{Countable K} {V : Type}.
Variables (key : Z -> K) (g : Z -> option V).

Let step (m : gmap K V) (k : Z) : gmap K V :=
  match g k with
  | Some d => <[key k := d]> m
  | None => m
  end.

(** A key that no element of the loop sets keeps its entry. *)
Lemma foldl_insert_other (ks : list Z) (m0 : gmap K V) (x : K) :
  (forall k, k ∈ ks -> key k <> x) -> foldl step m0 ks !! x = m0 !! x.
Proof.
  revert m0. induction ks as [|k ks IH]; intros m0 Hx; simpl; [reflexivity|].
  rewrite IH by (intros k' Hk'; apply Hx, list_elem_of_further, Hk').
  unfold step. destruct (g k); [|reflexivity].
  apply lookup_insert_ne, Hx, list_elem_of_here.
Qed.

(** An entry of the result was there before or was set by the loop. *)
Lemma foldl_insert_inv (ks : list Z) (m0 : gmap K V) (x : K) (d : V) :
  foldl step m0 ks !! x = Some d ->
  m0 !! x = Some d \/ exists k, k ∈ ks /\ x = key k /\ g k = Some d.
Proof.
  revert m0. induction ks as [|k ks IH]; intros m0 E; simpl in E; [auto|].
  destruct (IH _ E) as [E0|(k' & Hk' & -> & Hg)].
  - unfold step in E0. destruct (g k) as [d'|] eqn:Eg; [|auto].
    destruct (decide (key k = x)) as [<-|Hne].
    + rewrite lookup_insert_eq in E0. injection E0 as ->.
      right. exists k. split; [apply list_elem_of_here|auto].
    + rewrite lookup_insert_ne in E0 by exact Hne. auto.
  - right. exists k'. split; [apply list_elem_of_further, Hk'|auto].
Qed.

Hypothesis key_inj : forall k k', key k = key k' -> k = k'.

Lemma foldl_insert_set (ks : list Z) (m0 : gmap K V) (i : Z) (d : V) :
  i ∈ ks -> g i = Some d -> foldl step m0 ks !! key i = Some d.
Proof.
  revert m0. induction ks as [|k ks IH]; intros m0 Hi Hg; simpl.
  { apply not_elem_of_nil in Hi. destruct Hi. }
  destruct (decide (i ∈ ks)) as [Hin|Hnin]; [apply IH; assumption|].
  apply elem_of_cons in Hi. destruct Hi as [->|Hi]; [|contradiction].
  rewrite foldl_insert_other.
  - unfold step. rewrite Hg. apply lookup_insert_eq.
  - intros k' Hk' E. apply key_inj in E. subst k'. contradiction.
Qed.

Lemma foldl_insert_unset (ks : list Z) (m0 : gmap K V) (i : Z) :
  g i = None -> foldl step m0 ks !! key i = m0 !! key i.
Proof.
  revert m0. induction ks as [|k ks IH]; intros m0 Hg; simpl; [reflexivity|].
  rewrite IH by exact Hg. unfold step.
  destruct (g k) as [d|] eqn:Eg; [|reflexivity].
  apply lookup_insert_ne. intros E. apply key_inj in E. congruence.
Qed.

End FoldInsert.

Lemma dict_get_keys {V} (d : dict V) (k : Z) (v : V) :
  dict_get k d = Some v -> k ∈ sorted_keys d.
Proof.
  intros E. unfold sorted_keys. rewrite merge_sort_Permutation.
  induction d as [|[k' v'] d IH]; simpl in *; [discriminate|].
  destruct (Z.eqb_spec k k') as [->|Hne].
  - apply list_elem_of_here.
  - apply list_elem_of_further, IH, E.
Qed.

(** The entries of the colour table, for any palette: the indices 10 to
    255 are transparent, every other index has the entry of the palette,
    if the palette has one. *)
Lemma color_table_lookup (cmap : dict rgba) (i : Z) :
  color_table cmap !! i
  = if ((10 <=? i) && (i <? 256))%Z then Some (0, 0, 0, 0)%Z
    else dict_get i cmap.
Proof.
  unfold color_table, SetColorEntry.
  set (ct0 := foldl _ ∅ (sorted_keys cmap)).
  assert (E0 : ct0 !! i = dict_get i cmap).
  { subst ct0. destruct (dict_get i cmap) as [e|] eqn:Eg.
    - apply (foldl_insert_set (fun k => k) (fun k => dict_get k cmap));
        [auto | eapply dict_get_keys; eauto | exact Eg].
    - rewrite (foldl_insert_unset (fun k => k) (fun k => dict_get k cmap));
        [apply lookup_empty | auto | exact Eg]. }
  destruct ((10 <=? i) && (i <? 256))%Z eqn:Er.
  - apply andb_true_iff in Er. destruct Er as [E1 E2].
    apply Z.leb_le in E1. apply Z.ltb_lt in E2.
    apply (foldl_insert_set (fun k => k) (fun _ => Some (0, 0, 0, 0)%Z));
      [auto | apply elem_of_seqZ; lia | reflexivity].
  - rewrite (foldl_insert_other (fun k => k) (fun _ => Some (0, 0, 0, 0)%Z));
      [exact E0|].
    intros k Hk ->. apply elem_of_seqZ in Hk.
    apply andb_false_iff in Er. destruct Er as [Er|Er];
      [apply Z.leb_gt in Er | apply Z.ltb_ge in Er]; lia.
Qed.

Lemma esa_colortable_keys (i : Z) :
  is_Some (dict_get i get_esa_colortable) <-> (0 <= i <= 9)%Z.
Proof.
  unfold get_esa_colortable, dict_get.
  repeat match goal with
  | |- context [(i =? ?k)%Z] => destruct (Z.eqb_spec i k)
  end; split; intros X; try lia; try (eexists; reflexivity).
  destruct X as [? X]. discriminate X.
Qed.

(** X12.  The colour table written to the GeoTIFF has an entry for each
    index from 0 to 255 and for no other; the entries 0 to 9 are those of
    the palette, in which class 0 is transparent and the classes 1 to 9
    are opaque; every index from 10 to 255 is transparent. *)
Theorem color_table_entries (i : Z) :
  (is_Some (color_table get_esa_colortable !! i) <-> (0 <= i < 256)%Z) /\
  ((10 <= i < 256)%Z ->
     color_table get_esa_colortable !! i = Some (0, 0, 0, 0)%Z) /\
  ((i < 10)%Z ->
     color_table get_esa_colortable !! i = dict_get i get_esa_colortable) /\
  (forall r g b a,
     color_table get_esa_colortable !! i = Some (r, g, b, a) ->
     (a = 255%Z /\ (1 <= i <= 9)%Z) \/
     ((r, g, b, a) = (0, 0, 0, 0)%Z /\ (i = 0 \/ 10 <= i < 256)%Z)).
Proof.
  pose proof (color_table_lookup get_esa_colortable i) as Ect.
  destruct ((10 <=? i) && (i <? 256))%Z eqn:Er.
  - apply andb_true_iff in Er. destruct Er as [E1 E2].
    apply Z.leb_le in E1. apply Z.ltb_lt in E2.
    split; [rewrite Ect; split; [lia|eauto]|].
    split; [intros _; exact Ect|]. split; [lia|].
    intros r g b a E. rewrite Ect in E. injection E as <- <- <- <-.
    right. split; [reflexivity|lia].
  - assert (Hr : ~ (10 <= i < 256)%Z).
    { apply andb_false_iff in Er. destruct Er as [Er|Er];
        [apply Z.leb_gt in Er | apply Z.ltb_ge in Er]; lia. }
    split; [rewrite Ect, esa_colortable_keys; lia|]. split; [lia|].
    split; [intros _; exact Ect|].
    intros r g b a E. rewrite Ect in E.
    assert (Hi : (0 <= i <= 9)%Z) by (apply esa_colortable_keys; eauto).
    assert (Hc : (i = 0 \/ i = 1 \/ i = 2 \/ i = 3 \/ i = 4 \/ i = 5 \/
                  i = 6 \/ i = 7 \/ i = 8 \/ i = 9)%Z) by lia.
    clear Ect Er Hr Hi.
    repeat (destruct Hc as [->|Hc]); try subst i;
      vm_compute in E; injection E as <- <- <- <-;
      first [left; split; [reflexivity|lia] | right; split; [reflexivity|lia]].
Qed.

Lemma color_table_entries_witness :
  color_table get_esa_colortable !! 200%Z = Some (0, 0, 0, 0)%Z.
Proof.
  apply (proj1 (proj2 (color_table_entries 200))). lia.
Defined.

(** The rows of the preview table and the entries of the colour table
    agree on the classes. *)
Lemma color_lookup_matches (c : N) :
  (c <= 9)%N ->
  exists r g b a,
    color_lookup get_esa_colortable !! N.to_nat c = Some (r, g, b) /\
    color_table get_esa_colortable !! Z.of_N c = Some (r, g, b, a).
Proof.
  intros Hc.
  assert (H10 : (c = 0 \/ c = 1 \/ c = 2 \/ c = 3 \/ c = 4 \/ c = 5 \/
                 c = 6 \/ c = 7 \/ c = 8 \/ c = 9)%N) by lia.
  repeat (destruct H10 as [->|H10]); try subst c;
    do 4 eexists; split; vm_compute; reflexivity.
Qed.

Lemma color_lookup_bounds (c : N) :
  is_Some (color_lookup get_esa_colortable !! N.to_nat c) <-> (c <= 9)%N.
Proof.
  rewrite lookup_lt_is_Some.
  replace (length (color_lookup get_esa_colortable)) with 10 by reflexivity.
  lia.
Qed.

(** X13.  The preview raises IndexError exactly when the class map holds
    a value above 9; otherwise it has one colour for each pixel. *)
Theorem quicklook_bounds (cls : list N) :
  (quicklook_rgb cls = Raise IndexError <-> exists c, c ∈ cls /\ (9 < c)%N) /\
  ((forall c, c ∈ cls -> (c <= 9)%N) ->
   exists rgb, quicklook_rgb cls = Ok rgb /\ length rgb = length cls).
Proof.
  unfold quicklook_rgb.
  destruct (mapM _ cls) as [rgb|] eqn:E.
  - apply mapM_Some in E. split.
    + split; [discriminate|]. intros (c & Hc & Hgt).
      apply list_elem_of_lookup in Hc. destruct Hc as [i Hi].
      destruct (Forall2_lookup_l _ _ _ _ _ E Hi) as (y & _ & Ey).
      assert (c <= 9)%N by (apply color_lookup_bounds; eauto). lia.
    + intros _. exists rgb. split; [reflexivity|].
      symmetry. eapply Forall2_length, E.
  - split.
    + split; [intros _|reflexivity].
      destruct (decide (Forall (fun c => (c <= 9)%N) cls)) as [Hall|Hnot].
      * assert (X : is_Some (mapM (fun c => color_lookup get_esa_colortable
                                            !! N.to_nat c) cls)).
        { apply mapM_is_Some_2. eapply Forall_impl; [exact Hall|].
          intros c Hc. apply color_lookup_bounds, Hc. }
        rewrite E in X. destruct X as [? X]. discriminate X.
      * apply not_Forall_Exists in Hnot; [|apply _].
        apply Exists_exists in Hnot. destruct Hnot as (c & Hc & Hgt).
        exists c. split; [exact Hc|]. simpl in Hgt. lia.
    + intros Hall. exfalso.
      assert (X : is_Some (mapM (fun c => color_lookup get_esa_colortable
                                          !! N.to_nat c) cls)).
      { apply mapM_is_Some_2. apply Forall_forall. intros c Hc.
        apply color_lookup_bounds, Hall, Hc. }
      rewrite E in X. destruct X as [? X]. discriminate X.
Qed.

Lemma quicklook_bounds_witness :
  exists rgb, quicklook_rgb [3; 0; 9]%N = Ok rgb /\ length rgb = 3%nat.
Proof.
  apply (proj2 (quicklook_bounds [3; 0; 9]%N)).
  intros c Hc. apply list_elem_of_In in Hc. simpl in Hc.
  destruct Hc as [<-|[<-|[<-|[]]]]; lia.
Defined.

(** X14.  The class map of a run of the pipeline always has a preview:
    the lookup never leaves the table, the image has one colour for each
    pixel, and the colour of a pixel is the red, green and blue of the
    entry that the GeoTIFF colour table has for its class. *)
Theorem quicklook_of_main dt Hs As nodata nodata2 th :
  length As = length Hs -> As <> [] ->
  exists out rgb,
    run_main dt Hs As nodata nodata2 th = Ok out /\
    quicklook_rgb out = Ok rgb /\ length rgb = length Hs /\
    forall (i : nat) c,
      out !! i = Some c ->
      exists r g b a,
        color_table get_esa_colortable !! Z.of_N c = Some (r, g, b, a) /\
        rgb !! i = Some (r, g, b).
Proof.
  intros L HA.
  destruct (main_nodata_is_zero dt Hs As nodata nodata2 th L HA)
    as (out & E & Lo & _).
  assert (Hr : forall c, c ∈ out -> (c <= 9)%N).
  { intros c Hc. apply list_elem_of_lookup in Hc. destruct Hc as [i Hi].
    rewrite run_main_eq in E by assumption. injection E as <-.
    unfold main_class_map in Hi. eapply class_map_range, Hi. }
  destruct (proj2 (quicklook_bounds out) Hr) as (rgb & Eq & Lq).
  exists out, rgb. split; [exact E|]. split; [exact Eq|].
  split; [congruence|].
  intros i c Hi.
  unfold quicklook_rgb in Eq.
  destruct (mapM _ out) as [rgb'|] eqn:Em; [|discriminate].
  injection Eq as ->. apply mapM_Some in Em.
  destruct (Forall2_lookup_l _ _ _ _ _ Em Hi) as (y & Ey & Ec).
  destruct (color_lookup_matches c) as (r & g & b & a & E1 & E2).
  { apply Hr. eapply list_elem_of_lookup_2, Hi. }
  exists r, g, b, a. split; [exact E2|]. rewrite Ey. congruence.
Qed.

Lemma quicklook_of_main_witness :
  exists out rgb,
    run_main float32 [F32.x0_3] [F32.x60] None None F64.defaults = Ok out /\
    quicklook_rgb out = Ok rgb /\ length rgb = 1%nat.
Proof.
  destruct (quicklook_of_main float32 [F32.x0_3] [F32.x60] None None
              F64.defaults eq_refl ltac:(discriminate))
    as (out & rgb & E & Q & L & _).
  exists out, rgb. auto.
Defined.

Lemma class_key_inj (k k' : Z) : class_key k = class_key k' -> k = k'.
Proof.
  unfold class_key. intros E.
  apply (inj (String.app "CLASS_")) in E. apply (inj pretty) in E. exact E.
Qed.

(** X15.  The metadata holds the description of class [k] under the key
    CLASS_k, for every key of the descriptions, and nothing else: two
    classes never share a key, so no description is lost or replaced. *)
Theorem metadata_entries (class_desc : option (dict string)) :
  (forall k,
     metadata class_desc !! class_key k
     = dict_get k (default CLASS_DESC class_desc)) /\
  (forall s d,
     metadata class_desc !! s = Some d ->
     exists k, s = class_key k /\
               dict_get k (default CLASS_DESC class_desc) = Some d) /\
  (forall k, (0 <= k <= 9)%Z -> is_Some (metadata None !! class_key k)).
Proof.
  unfold metadata. set (cd := default CLASS_DESC class_desc).
  split; [|split].
  - intros k. destruct (dict_get k cd) as [d|] eqn:Eg.
    + apply (foldl_insert_set class_key (fun k => dict_get k cd));
        [apply class_key_inj | eapply dict_get_keys; eauto | exact Eg].
    + rewrite (foldl_insert_unset class_key (fun k => dict_get k cd));
        [apply lookup_empty | apply class_key_inj | exact Eg].
  - intros s d E.
    apply (foldl_insert_inv class_key (fun k => dict_get k cd)) in E.
    destruct E as [E|(k & _ & -> & Eg)].
    + rewrite lookup_empty in E. discriminate.
    + eauto.
  - intros k Hk. simpl.
    assert (Hc : (k = 0 \/ k = 1 \/ k = 2 \/ k = 3 \/ k = 4 \/ k = 5 \/
                  k = 6 \/ k = 7 \/ k = 8 \/ k = 9)%Z) by lia.
    repeat (destruct Hc as [->|Hc]); try subst k;
      vm_compute; eexists; reflexivity.
Qed.

Lemma metadata_entries_witness :
  is_Some (metadata None !! class_key 7).
Proof.
  apply (proj2 (proj2 (metadata_entries None)) 7%Z). lia.
Defined.

(** ** The path of the preview *)

Lemma rfind_found (c : ascii) (p : path) :
  (0 <= rfind c p)%Z -> p !! Z.to_nat (rfind c p) = Some c.
Proof.
  induction p as [|x p IH]; simpl; [lia|].
  destruct (Z.leb_spec 0 (rfind c p)) as [Hr|Hr].
  - intros _. replace (Z.to_nat (rfind c p + 1)) with (S (Z.to_nat (rfind c p)))
      by lia. simpl. apply IH, Hr.
  - destruct (Ascii.eqb_spec x c) as [->|]; [intros _; reflexivity|lia].
Qed.

Lemma skip_leading_dots_cases (p : path) (n filenameIndex dotIndex : nat) :
  skip_leading_dots p filenameIndex n dotIndex = (p, []) \/
  skip_leading_dots p filenameIndex n dotIndex
  = (take dotIndex p, drop dotIndex p).
Proof.
  revert filenameIndex. induction n as [|n IH]; intros f; simpl; [auto|].
  destruct (p !! f) as [x|]; [|auto].
  destruct (negb (Ascii.eqb x ".")); [auto|apply IH].
Qed.

(** [splitext] cuts the path in two, and the extension is empty or begins
    with a dot. *)
Lemma splitext_spec (p : path) :
  (splitext p).1 ++ (splitext p).2 = p /\
  ((splitext p).2 = [] \/ exists t, (splitext p).2 = "."%char :: t).
Proof.
  unfold splitext.
  destruct (Z.gtb_spec (rfind "." p) (rfind "/" p)) as [Hgt|_];
    [|simpl; rewrite app_nil_r; auto].
  assert (H0 : (-1 <= rfind "/" p)%Z).
  { clear. induction p as [|x p IH]; simpl; [lia|].
    destruct (Z.leb_spec 0 (rfind "/" p)); [lia|].
    destruct (Ascii.eqb x "/"); lia. }
  destruct (skip_leading_dots_cases p
              (Z.to_nat (rfind "." p) - Z.to_nat (rfind "/" p + 1))
              (Z.to_nat (rfind "/" p + 1)) (Z.to_nat (rfind "." p)))
    as [-> | ->]; simpl.
  - rewrite app_nil_r. auto.
  - split; [apply take_drop|]. right.
    eexists. apply drop_S, rfind_found. lia.
Qed.

(** X16.  The preview is never written over the class map: whatever the
    output path, the path of the preview is a different path; it is a
    part of the output path, with its extension if it has one taken off,
    followed by _ql.png. *)
Theorem quicklook_path_distinct (out : path) :
  quicklook_path out <> out /\
  exists root ext,
    out = root ++ ext /\
    quicklook_path out = root ++ list_ascii_of_string "_ql.png".
Proof.
  destruct (splitext_spec out) as [Hcut Hext].
  unfold quicklook_path. split.
  - intros E.
    assert (E' : (splitext out).1 ++ list_ascii_of_string "_ql.png"
                 = (splitext out).1 ++ (splitext out).2)
      by (rewrite Hcut; exact E).
    apply app_inv_head in E'.
    destruct Hext as [E0|[t E0]]; rewrite E0 in E'; discriminate E'.
  - exists (splitext out).1, (splitext out).2. auto.
Qed.

Lemma quicklook_path_distinct_witness :
  quicklook_path (list_ascii_of_string "ha9.tif")
  <> list_ascii_of_string "ha9.tif".
Proof.
  apply (proj1 (quicklook_path_distinct (list_ascii_of_string "ha9.tif"))).
Defined.

(** ** ensure_loaded *)

Lemma read_raw_binary_ok can_alloc contents width height dt bo sh a :
  read_raw_binary can_alloc contents width height dt bo = Ok (sh, a) ->
  sh = (Z.to_nat height, Z.to_nat width) /\
  length a = (Z.to_nat height * Z.to_nat width)%nat.
Proof.
  unfold read_raw_binary, reshape.
  destruct (np_fromfile can_alloc contents dt bo (width * height)) as [a0|];
    [|discriminate].
  destruct (negb (Z.of_nat (length a0) =? _)%Z); [discriminate|].
  destruct (negb (fits_ssize height && fits_ssize width)); [discriminate|].
  destruct ((height <? 0) || (width <? 0))%Z eqn:En; [discriminate|].
  apply orb_false_iff in En. destruct En as [E1 E2].
  apply Z.ltb_ge in E1, E2.
  destruct (Z.eqb_spec (height * width) (Z.of_nat (length a0))) as [E|];
    [|discriminate]. simpl.
  destruct (array_too_big dt [height; width]); [discriminate|].
  intros [= <- <-]. split; [reflexivity|]. nia.
Qed.

(** X17.  Rasters that GDAL cannot open are read as raw binaries and carry
    no nodata value: missing dimensions are an error whatever the files
    hold; and two rasters loaded with the same dimensions have one shape,
    and in the pipeline (thresholds not NaN) such a pixel is of class 0
    exactly when its entropy or its alpha is NaN - a sentinel such as
    -9999 in a raw file is classified like any other value. *)
Theorem raw_inputs_have_no_nodata can_alloc contentsH contentsA width height dt bo
    th :
  (width = None \/ height = None ->
   ensure_loaded can_alloc None contentsH width height dt bo = inl WidthHeightRequired) /\
  (forall shH Hs gH pH ndH shA As gA pA ndA,
     ensure_loaded can_alloc None contentsH width height dt bo
     = inr ((shH, Hs), gH, pH, ndH) ->
     ensure_loaded can_alloc None contentsA width height dt bo
     = inr ((shA, As), gA, pA, ndA) ->
     As <> [] -> thresholds_not_nan (cast_thresholds dt th) = true ->
     ndH = None /\ ndA = None /\ shH = shA /\
     exists out,
       run_main dt Hs As ndH ndA th = Ok out /\
       forall (i : nat) h a,
         Hs !! i = Some h -> As !! i = Some a ->
         (out !! i = Some 0%N <-> isnan h = true \/ isnan a = true)).
Proof.
  split.
  - intros [-> | ->]; simpl; [reflexivity|]. destruct width; reflexivity.
  - intros shH Hs gH pH ndH shA As gA pA ndA EH EA HA Hnn.
    unfold ensure_loaded in EH, EA.
    destruct width as [w|]; [|discriminate].
    destruct height as [h|]; [|discriminate].
    destruct (read_raw_binary can_alloc contentsH w h dt bo) as [[sh1 a1]|] eqn:RH;
      [|discriminate].
    destruct (read_raw_binary can_alloc contentsA w h dt bo) as [[sh2 a2]|] eqn:RA;
      [|discriminate].
    injection EH as <- <- <- <- <-. injection EA as <- <- <- <- <-.
    apply read_raw_binary_ok in RH, RA.
    destruct RH as [-> LH], RA as [-> LA].
    split; [reflexivity|]. split; [reflexivity|]. split; [reflexivity|].
    assert (L : length a2 = length a1) by congruence.
    destruct (main_nodata_is_zero dt a1 a2 None None th L HA)
      as (out & E & _ & P0).
    destruct (main_valid_is_classified dt a1 a2 None None th L HA Hnn)
      as (out' & E' & P1).
    assert (out' = out) by congruence. subst out'.
    exists out. split; [exact E|].
    intros i x a Ex Ea. split.
    + intros Z0.
      destruct (isnan x) eqn:Nx; [auto|].
      destruct (isnan a) eqn:Na; [auto|]. exfalso.
      destruct (P1 i x a Ex Ea Nx Na Nx Na) as (c & Ec & Hc).
      rewrite Z0 in Ec. injection Ec as <-. lia.
    + intros Hn. apply (P0 i x a Ex Ea). tauto.
Qed.

Lemma raw_inputs_have_no_nodata_witness :
  ensure_loaded (fun _ _ => true) None [x9a; x99; x99; x3e]%byte None
    (Some 1%Z) float32 little
  = inl WidthHeightRequired
  /\ exists out,
       run_main float32 [F32.x0_3] [F32.x60] None None F64.defaults = Ok out /\
       (out !! 0%nat = Some 0%N <->
        isnan F32.x0_3 = true \/ isnan F32.x60 = true).
Proof.
  split.
  - apply (proj1 (raw_inputs_have_no_nodata (fun _ _ => true)
                    [x9a; x99; x99; x3e]%byte []
                    None (Some 1%Z) float32 little F64.defaults)).
    left. reflexivity.
  - destruct (proj2 (raw_inputs_have_no_nodata (fun _ _ => true)
                       [x9a; x99; x99; x3e]%byte [x00; x00; x70; x42]%byte
                       (Some 1%Z) (Some 1%Z) float32 little F64.defaults)
                (1%nat, 1%nat) [F32.x0_3] None None None
                (1%nat, 1%nat) [F32.x60] None None None)
      as (_ & _ & _ & out & E & P).
    + vm_compute; reflexivity.
    + vm_compute; reflexivity.
    + discriminate.
    + vm_compute; reflexivity.
    + exists out. split; [exact E|].
      apply (P 0%nat F32.x0_3 F32.x60); reflexivity.
Defined.

(** ** The classes of one entropy bin are ordered by alpha *)

Lemma alpha_pair_ordered th b :
  ordered th = true ->
  le (fst (alpha_pair th b)) (snd (alpha_pair th b)) = true.
Proof.
  intros Hord. destruct th as [[h_lo h_hi] [a_l1 a_h1] [a_l2 a_h2] [a_l3 a_h3]].
  split_ordered Hord. destruct b; assumption.
Qed.

Lemma in_alpha_sub_exists p a :
  le (fst p) (snd p) = true -> isnan a = false ->
  exists j, in_alpha_sub p j a = true.
Proof.
  destruct p as [lo hi]; simpl. intros Hp Ha.
  apply le_not_nan in Hp. destruct Hp as [Hlo Hhi].
  destruct (le a lo) eqn:E1; [exists Sub0; reflexivity|].
  destruct (le a hi) eqn:E2; [exists Sub1|exists Sub2]; simpl;
    change (lt ?c a) with (gt a c);
    rewrite ?(gt_negb_le a lo Ha Hlo), ?(gt_negb_le a hi Ha Hhi), ?E1, ?E2;
    reflexivity.
Qed.

(** A greater alpha is never in a lower sub-bin. *)
Lemma in_alpha_sub_monotone p j j' a a' :
  le (fst p) (snd p) = true -> le a a' = true ->
  in_alpha_sub p j a = true -> in_alpha_sub p j' a' = true ->
  (zone_table LowH j' <= zone_table LowH j)%N.
Proof.
  destruct p as [lo hi]; simpl. intros Hp Haa Hj Hj'.
  assert (T1 : le a' lo = true -> gt a lo = false)
    by (intros X; apply le_gt_false; eapply le_trans; eauto).
  assert (T2 : le a' hi = true -> gt a hi = false)
    by (intros X; apply le_gt_false; eapply le_trans; eauto).
  assert (T3 : le a' lo = true -> le a' hi = true)
    by (intros X; eapply le_trans; eauto).
  destruct j, j'; simpl in *; try lia;
    change (lt ?c a) with (gt a c) in *;
    rewrite ?andb_true_iff in *;
    repeat match goal with H : _ /\ _ |- _ => destruct H end;
    try (rewrite T1 in * by auto; discriminate);
    try (rewrite T2 in * by auto; discriminate).
Qed.

Lemma zone_table_bin_shift b j j' :
  (zone_table LowH j' <= zone_table LowH j)%N ->
  (zone_table b j' <= zone_table b j)%N.
Proof. destruct b, j, j'; simpl; lia. Qed.

Lemma pixel_class_alpha_monotone th h a a' :
  ordered th = true -> le a a' = true ->
  (pixel_class th h a' false <= pixel_class th h a false)%N.
Proof.
  intros Hord Haa. destruct (le_not_nan _ _ Haa) as [Ha Ha'].
  pose proof (ordered_not_nan _ Hord) as Hnn.
  destruct (isnan h) eqn:Hh.
  { rewrite !pixel_class_nan by auto. lia. }
  destruct (applies_exists th h a Hnn Hh Ha) as (b & j & E).
  destruct (applies_exists th h a' Hnn Hh Ha') as (b' & j' & E').
  assert (b' = b).
  { pose proof E' as X. unfold applies in X. apply andb_true_iff in X.
    destruct X as [Hb' _].
    destruct (in_alpha_sub_exists (alpha_pair th b') a
                (alpha_pair_ordered th b' Hord) Ha) as [j2 Hj2].
    assert (E2 : applies th b' j2 h a = true)
      by (unfold applies; rewrite Hb', Hj2; reflexivity).
    destruct (applies_unique th b j b' j2 h a Hord E E2) as [-> _].
    reflexivity. }
  subst b'.
  rewrite (pixel_class_table th b j h a Hord E).
  rewrite (pixel_class_table th b j' h a' Hord E').
  apply zone_table_bin_shift.
  unfold applies in E, E'. apply andb_true_iff in E, E'.
  destruct E as [_ Hj], E' as [_ Hj'].
  eapply in_alpha_sub_monotone; eauto using alpha_pair_ordered.
Qed.

(** X18.  With ordered thresholds, of two pixels outside the mask that
    have the same entropy, the one with the greater alpha never has the
    greater class: within an entropy bin the class falls from 7, 8 or 9
    through 4, 5 or 6 to 1, 2 or 3 as alpha grows. *)
Theorem class_falls_with_alpha s H alpha_deg Hs As th nodata_mask Ms :
  grids_in s H alpha_deg Hs As ->
  mask_of s Hs As nodata_mask = Some Ms ->
  ordered th = true ->
  exists out,
    returns_class_map H alpha_deg th nodata_mask s out /\
    forall (i i' : nat) h a a',
      Hs !! i = Some h -> Hs !! i' = Some h ->
      As !! i = Some a -> As !! i' = Some a' ->
      Ms !! i = Some false -> Ms !! i' = Some false ->
      le a a' = true ->
      exists c c',
        out !! i = Some c /\ out !! i' = Some c' /\ (c' <= c)%N.
Proof.
  intros HG HM Hord.
  destruct (classify_pixels s H alpha_deg Hs As th nodata_mask Ms HG HM)
    as (R & _ & P).
  exists (class_map th Hs As Ms). split; [exact R|].
  intros i i' h a a' EH EH' EA EA' EM EM' Haa.
  exists (pixel_class th h a false), (pixel_class th h a' false).
  split; [apply P; assumption|]. split; [apply P; assumption|].
  apply pixel_class_alpha_monotone; assumption.
Qed.

Lemma class_falls_with_alpha_witness :
  exists out c c',
    returns_class_map 0 1 F32.defaults None
      [AFloat [F32.x0_3; F32.x0_3]; AFloat [F32.x30; F32.x60]] out /\
    out !! 0%nat = Some c /\ out !! 1%nat = Some c' /\ (c' <= c)%N.
Proof.
  destruct (class_falls_with_alpha
              [AFloat [F32.x0_3; F32.x0_3]; AFloat [F32.x30; F32.x60]]
              0%nat 1%nat [F32.x0_3; F32.x0_3] [F32.x30; F32.x60]
              F32.defaults None [false; false])
    as (out & R & P).
  - repeat split; reflexivity.
  - reflexivity.
  - vm_compute; reflexivity.
  - destruct (P 0%nat 1%nat F32.x0_3 F32.x30 F32.x60)
      as (c & c' & E & E' & Hc); try reflexivity.
    exists out, c, c'. auto.
Defined.
